(** * Payroll and vacation rules of [employees.py]

    A shallow embedding of [src/employees.py]: the domain model, the
    payment strategies, the vacation policies, the factories, the
    operation log, the two commands, the services, the configuration
    manager and the company's list of employees, followed by the
    properties the specification states about them and by further
    properties of the code.

    Conventions of the embedding.
    - Python [int] is [Z]. Python [float] is an IEEE 754 binary64 value,
      a [spec_float] of the Standard Library taken at precision 53 and
      maximal exponent 1024, with its rounding to nearest even, its
      signed zeros, its infinities and its NaN. An operation that mixes
      an [int] and a [float] first converts the [int], which raises
      [OverflowError] when the [int] is out of the range of floats;
      comparisons between them are exact.
    - A field annotated [Optional[...]] is an [option]; a value that a
      strategy or the configuration hands back may be a number or
      Python's [None], hence [pyval].
    - A field annotated with an [Enum] class is an [option] of the
      enumeration: [Some m] is the member [m], [None] stands for any
      Python value that is not a member (the dataclass does not check
      its annotations, and the selectors have branches for that case).
    - Mutation and exceptions are explicit: a command is a function from
      the world (the employee object it refers to, and the class-level
      list [OperationLog._operations]) to the world it leaves behind and
      an outcome, so that what a raised exception leaves behind is part
      of the model.
    - [datetime.now()] is the argument [now] of the function that reads
      the clock.
    - An f-string is kept as its template with the interpolated values
      ([Details], [Message]); the rendering of digits is not modelled. *)

From Stdlib Require Import ZArith QArith List String Bool Lia SpecFloat.
From stdpp Require Import base decidable option strings gmap.
Import ListNotations.

Local Open Scope string_scope.
Local Open Scope Z_scope.

(** ** Floats *)

(** Binary64 addition and multiplication. *)
Definition fadd : spec_float -> spec_float -> spec_float := SFadd 53 1024.

Definition fmul : spec_float -> spec_float -> spec_float := SFmul 53 1024.

(** The float nearest to an integer, ties to even; integers beyond the
    largest float round to an infinity. *)
Definition nearest_float (z : Z) : spec_float := binary_normalize 53 1024 z 0 false.

(** [0.0] *)
Definition float_zero : spec_float := S754_zero false.

(** [0.1], the float nearest to one tenth: 7205759403792794 / 2^56. *)
Definition float_tenth : spec_float := S754_finite false 7205759403792794 (-56).

(** The rational a finite float stands for. *)
Definition float_value (f : spec_float) : Q :=
  match f with
  | S754_finite s m e => (inject_Z (cond_Zopp s (Zpos m)) * Qpower 2 e)%Q
  | _ => 0%Q
  end.

(** ** Domain models *)

Inductive EmployeeType := SALARIED | HOURLY | FREELANCER.

Inductive Role := INTERN | MANAGER | VICE_PRESIDENT.

#[global] Instance EmployeeType_eq_dec : EqDecision EmployeeType.
Proof. solve_decision. Defined.

#[global] Instance Role_eq_dec : EqDecision Role.
Proof. solve_decision. Defined.

Module Project.
Record t := mk {
  name : string;
  amount : spec_float;
  delivered : bool
}.
End Project.

Module Employee.
Record t := mk {
  name : string;
  role : option Role;
  employee_type : option EmployeeType;
  vacation_days : Z;
  salary : option spec_float;
  hourly_rate : option spec_float;
  hours_worked : option Z;
  projects : list Project.t
}.

Definition set_vacation_days (self : t) (d : Z) : t :=
  mk (name self) (role self) (employee_type self) d
     (salary self) (hourly_rate self) (hours_worked self) (projects self).

Definition set_projects (self : t) (ps : list Project.t) : t :=
  mk (name self) (role self) (employee_type self) (vacation_days self)
     (salary self) (hourly_rate self) (hours_worked self) ps.

(** [self.projects.append(project)] *)
Definition add_project (self : t) (project : Project.t) : t :=
  set_projects self (projects self ++ [project]).

(** [[p for p in self.projects if p.delivered]] *)
Definition get_delivered_projects (self : t) : list Project.t :=
  List.filter Project.delivered (projects self).
End Employee.

(** ** Python values, exceptions and outcomes *)

(** A value that is a number or [None]. *)
Inductive pyval :=
  | PNone
  | PInt (z : Z)
  | PFloat (f : spec_float).

(** The text of the [ValueError]s the code raises, as template and
    interpolated values. *)
Inductive Message :=
  | UnknownEmployeeType
  | CannotPayout (days : Z) (employee_name : string)
  | CannotTake (days : Z) (employee_name : string)
  | OnlyFreelancers.

Inductive exn :=
  | ValueError (msg : Message)
  | TypeError
  | OverflowError.

Inductive outcome (A : Type) :=
  | Returned (a : A)
  | Raised (e : exn).
Arguments Returned {A} a.
Arguments Raised {A} e.

Definition obind {A B} (o : outcome A) (k : A -> outcome B) : outcome B :=
  match o with
  | Returned a => k a
  | Raised e => Raised e
  end.

(** [x > y] on rationals *)
Definition Qgtb (x y : Q) : bool :=
  match (x ?= y)%Q with Gt => true | _ => false end.

(** [float(z)]: "int too large to convert to float" when the nearest
    float is an infinity. *)
Definition float_of_int (z : Z) : outcome spec_float :=
  match nearest_float z with
  | S754_infinity _ => Raised OverflowError
  | f => Returned f
  end.

(** Binary operators on values. [None] as an operand raises
    [TypeError]; two ints are combined exactly; an int met by a float is
    converted first; two floats are combined with rounding, an overflow
    giving an infinity without any exception. *)
Definition py_add (x y : pyval) : outcome pyval :=
  match x, y with
  | PInt a, PInt b => Returned (PInt (a + b))
  | PInt a, PFloat b =>
      obind (float_of_int a) (fun a' => Returned (PFloat (fadd a' b)))
  | PFloat a, PInt b =>
      obind (float_of_int b) (fun b' => Returned (PFloat (fadd a b')))
  | PFloat a, PFloat b => Returned (PFloat (fadd a b))
  | _, _ => Raised TypeError
  end.

Definition py_mul (x y : pyval) : outcome pyval :=
  match x, y with
  | PInt a, PInt b => Returned (PInt (a * b))
  | PInt a, PFloat b =>
      obind (float_of_int a) (fun a' => Returned (PFloat (fmul a' b)))
  | PFloat a, PInt b =>
      obind (float_of_int b) (fun b' => Returned (PFloat (fmul a b')))
  | PFloat a, PFloat b => Returned (PFloat (fmul a b))
  | _, _ => Raised TypeError
  end.

(** Where a number stands in the order: a NaN, an infinity, or the
    rational it is equal to. *)
Inductive rank :=
  | RNaN
  | RNegInf
  | RFinite (q : Q)
  | RPosInf.

Definition rank_of_float (f : spec_float) : rank :=
  match f with
  | S754_nan => RNaN
  | S754_infinity true => RNegInf
  | S754_infinity false => RPosInf
  | _ => RFinite (float_value f)
  end.

Definition rank_gt (a b : rank) : bool :=
  match a, b with
  | RNaN, _ | _, RNaN => false
  | RNegInf, _ => false
  | _, RNegInf => true
  | _, RPosInf => false
  | RPosInf, _ => true
  | RFinite x, RFinite y => Qgtb x y
  end.

(** [x > y]: exact between ints, between floats and between an int and
    a float; false whenever a NaN is involved. *)
Definition py_gt (x y : pyval) : outcome bool :=
  match x, y with
  | PInt a, PInt b => Returned (rank_gt (RFinite (inject_Z a)) (RFinite (inject_Z b)))
  | PInt a, PFloat b => Returned (rank_gt (RFinite (inject_Z a)) (rank_of_float b))
  | PFloat a, PInt b => Returned (rank_gt (rank_of_float a) (RFinite (inject_Z b)))
  | PFloat a, PFloat b => Returned (rank_gt (rank_of_float a) (rank_of_float b))
  | _, _ => Raised TypeError
  end.

Definition of_float (o : option spec_float) : pyval :=
  match o with Some f => PFloat f | None => PNone end.

Definition of_int (o : option Z) : pyval :=
  match o with Some z => PInt z | None => PNone end.

(** [sum(...)]: starts from the int 0 and adds the items from the left,
    as CPython 3.11 does; the first addition turns the total into a
    float. (From 3.12 on CPython sums floats with a compensation term;
    the two agree on lists of at most two floats.) *)
Definition py_sum (items : list pyval) : outcome pyval :=
  fold_left (fun total item => obind total (fun t => py_add t item))
            items (Returned (PInt 0)).

(** ** Payment strategies *)

Inductive PaymentStrategy := SalariedPayment | HourlyPayment | FreelancePayment.

Definition calculate_payment (self : PaymentStrategy) (employee : Employee.t)
  : outcome pyval :=
  match self with
  | SalariedPayment => Returned (of_float (Employee.salary employee))
  | HourlyPayment =>
      py_mul (of_float (Employee.hourly_rate employee))
             (of_int (Employee.hours_worked employee))
  | FreelancePayment =>
      let delivered_projects := Employee.get_delivered_projects employee in
      py_sum (map (fun project => PFloat (Project.amount project))
                  delivered_projects)
  end.
(** ** Vacation policies *)

Inductive VacationPolicy :=
  | BasicVacation
  | ManagerVacation
  | VPVacation
  | InternVacation
  | HourlyVacation.

#[global] Instance VacationPolicy_eq_dec : EqDecision VacationPolicy.
Proof. solve_decision. Defined.

(** Result of [calculate_vacation_days]: a day count, or [float('inf')]. *)
Inductive Entitlement := Days (n : Z) | Unlimited.

Definition calculate_vacation_days (self : VacationPolicy) (employee : Employee.t)
  : Entitlement :=
  match self with
  | BasicVacation => Days (Employee.vacation_days employee)
  | ManagerVacation => Days (Employee.vacation_days employee)
  | VPVacation => Unlimited
  | InternVacation => Days 0
  | HourlyVacation => Days (Employee.vacation_days employee)
  end.

Definition can_take_vacation (self : VacationPolicy) (employee : Employee.t)
  (days : Z) : bool :=
  match self with
  | BasicVacation => Employee.vacation_days employee >=? days
  | ManagerVacation => Employee.vacation_days employee >=? days
  | VPVacation => days <=? 5
  | InternVacation => false
  | HourlyVacation => Employee.vacation_days employee >=? days
  end.

Definition can_payout_vacation (self : VacationPolicy) (employee : Employee.t)
  (days : Z) : bool :=
  match self with
  | BasicVacation => (Employee.vacation_days employee >=? days) && (days <=? 5)
  | ManagerVacation => (Employee.vacation_days employee >=? days) && (days <=? 10)
  | VPVacation => days <=? 5
  | InternVacation => false
  | HourlyVacation => (Employee.vacation_days employee >=? days) && (days <=? 5)
  end.

(** ** Strategy factory *)

Module StrategyFactory.
Definition create_payment_strategy (employee_type : option EmployeeType)
  : outcome PaymentStrategy :=
  if decide (employee_type = Some SALARIED) then Returned SalariedPayment
  else if decide (employee_type = Some HOURLY) then Returned HourlyPayment
  else if decide (employee_type = Some FREELANCER) then Returned FreelancePayment
  else Raised (ValueError UnknownEmployeeType).

Definition create_vacation_policy (role : option Role)
  (employee_type : option EmployeeType) : VacationPolicy :=
  if decide (role = Some INTERN) then InternVacation
  else if decide (role = Some MANAGER) then ManagerVacation
  else if decide (role = Some VICE_PRESIDENT) then VPVacation
  else if decide (employee_type = Some HOURLY) then HourlyVacation
  else BasicVacation.
End StrategyFactory.

(** ** Operation log *)

(** The text of the [details] argument, as template and interpolated
    values: [f"Base: ${base:.2f}"] with the optional
    [f", Bonus: ${bonus:.2f}"], [f"Paid out {days} vacation days"] and
    [f"Took {days} vacation days"]. *)
Inductive Details :=
  | BaseBonus (base : spec_float) (bonus : option spec_float)
  | PaidOut (days : Z)
  | Took (days : Z).

Module LogEntry.
Record t := mk {
  timestamp : Z;
  operation : string;
  employee_name : option string;
  amount : pyval;
  details : option Details
}.
End LogEntry.

(** Truthiness of [employee_name] in [if employee_name:]: [None] and the
    empty string are falsy. *)
Definition truthy (employee_name : option string) : bool :=
  match employee_name with
  | None => false
  | Some s => negb (String.eqb s "")
  end.

Module OperationLog.
(** The functions take and give back the class attribute [_operations]. *)
Definition record (operation : string) (employee_name : option string)
  (amount : pyval) (details : option Details) (now : Z)
  (_operations : list LogEntry.t) : list LogEntry.t :=
  let log_entry := LogEntry.mk now operation employee_name amount details in
  _operations ++ [log_entry].

Definition get_operations (employee_name : option string)
  (_operations : list LogEntry.t) : list LogEntry.t :=
  if truthy employee_name then
    List.filter (fun op => bool_decide (LogEntry.employee_name op = employee_name))
                _operations
  else _operations.

Definition clear_log (_operations : list LogEntry.t) : list LogEntry.t := [].
End OperationLog.

(** ** Commands: state and exceptions *)

(** The mutable objects a command touches: the employee it was built
    with, and the log. *)
Record World := mkWorld {
  the_employee : Employee.t;
  the_log : list LogEntry.t
}.

Definition Cmd (A : Type) : Type := World -> World * outcome A.

Definition ret {A} (a : A) : Cmd A := fun w => (w, Returned a).

Definition bind {A B} (c : Cmd A) (k : A -> Cmd B) : Cmd B :=
  fun w =>
    match c w with
    | (w', Returned a) => k a w'
    | (w', Raised e) => (w', Raised e)
    end.

Definition raise {A} (e : exn) : Cmd A := fun w => (w, Raised e).

Definition lift {A} (o : outcome A) : Cmd A := fun w => (w, o).

Definition get_employee : Cmd Employee.t :=
  fun w => (w, Returned (the_employee w)).

Definition put_employee (e : Employee.t) : Cmd unit :=
  fun w => (mkWorld e (the_log w), Returned tt).

Definition get_log : Cmd (list LogEntry.t) :=
  fun w => (w, Returned (the_log w)).

Definition on_log (f : list LogEntry.t -> list LogEntry.t) : Cmd unit :=
  fun w => (mkWorld (the_employee w) (f (the_log w)), Returned tt).

Declare Scope cmd_scope.
Delimit Scope cmd_scope with cmd.
Notation "x <- c ;; k" := (bind c (fun x => k))
  (at level 100, c at next level, k at level 200, right associativity) : cmd_scope.
Notation "c ;;; k" := (bind c (fun _ => k))
  (at level 100, k at level 200, right associativity) : cmd_scope.

(** ** Configuration *)

(** The dictionary of business rules: what the JSON text gives for each
    key, a float, an int, or [None] for [null]. *)

(** [config.get(key, default)] *)
Definition config_get (config : gmap string pyval) (key : string) (dflt : pyval)
  : pyval :=
  default dflt (config !! key).

Definition DEFAULT_CONFIG : gmap string pyval :=
  <["salaried_bonus_percentage" := PFloat float_tenth]>
  (<["hourly_bonus_threshold" := PInt 160]>
  (<["hourly_bonus_amount" := PInt 100]> ∅)).

(** ** Commands *)

Local Open Scope cmd_scope.

(** Rendering with [:.2f]: the value is rendered as a float, an int
    being converted first; [None] cannot be rendered. *)
Definition py_format_2f (v : pyval) : outcome spec_float :=
  match v with
  | PFloat f => Returned f
  | PInt z => float_of_int z
  | PNone => Raised TypeError
  end.

Module PayEmployeeCommand.
(** [self.employee] is the employee of the world. *)
Record t := mk {
  payment_strategy : PaymentStrategy;
  config : gmap string pyval
}.

Definition _calculate_bonus (self : t) (employee : Employee.t)
  (base_payment : pyval) : outcome pyval :=
  if decide (Employee.role employee = Some INTERN) then Returned (PFloat float_zero)
  else if decide (Employee.employee_type employee = Some SALARIED) then
    py_mul base_payment
           (config_get (config self) "salaried_bonus_percentage" (PFloat float_tenth))
  else if decide (Employee.employee_type employee = Some HOURLY) then
    let threshold := config_get (config self) "hourly_bonus_threshold" (PInt 160) in
    let bonus_amount := config_get (config self) "hourly_bonus_amount" (PInt 100) in
    obind (py_gt (of_int (Employee.hours_worked employee)) threshold)
          (fun above => Returned (if above then bonus_amount else PFloat float_zero))
  else Returned (PFloat float_zero).

Definition execute (self : t) (now : Z) : Cmd pyval :=
  employee <- get_employee ;;
  base_payment <- lift (calculate_payment (payment_strategy self) employee) ;;
  bonus <- lift (_calculate_bonus self employee base_payment) ;;
  total_payment <- lift (py_add base_payment bonus) ;;
  base_shown <- lift (py_format_2f base_payment) ;;
  has_bonus <- lift (py_gt bonus (PInt 0)) ;;
  bonus_shown <- (if has_bonus
                  then lift (obind (py_format_2f bonus) (fun b => Returned (Some b)))
                  else ret None) ;;
  let details := BaseBonus base_shown bonus_shown in
  on_log (OperationLog.record "PAYMENT" (Some (Employee.name employee))
                              total_payment (Some details) now) ;;;
  ret total_payment.
End PayEmployeeCommand.

Module GrantVacationCommand.
(** [self.employee] is the employee of the world. *)
Record t := mk {
  vacation_policy : VacationPolicy;
  days : Z;
  payout : bool
}.

Definition execute (self : t) (now : Z) : Cmd unit :=
  employee <- get_employee ;;
  if payout self then
    if negb (can_payout_vacation (vacation_policy self) employee (days self)) then
      raise (ValueError (CannotPayout (days self) (Employee.name employee)))
    else
      (if decide (Employee.role employee <> Some VICE_PRESIDENT) then
         put_employee (Employee.set_vacation_days employee
                         (Employee.vacation_days employee - days self))
       else ret tt) ;;;
      on_log (OperationLog.record "VACATION_PAYOUT" (Some (Employee.name employee))
                (PInt (days self)) (Some (PaidOut (days self))) now)
  else
    if negb (can_take_vacation (vacation_policy self) employee (days self)) then
      raise (ValueError (CannotTake (days self) (Employee.name employee)))
    else
      (if decide (Employee.role employee <> Some VICE_PRESIDENT) then
         put_employee (Employee.set_vacation_days employee
                         (Employee.vacation_days employee - days self))
       else ret tt) ;;;
      on_log (OperationLog.record "VACATION_TAKEN" (Some (Employee.name employee))
                (PInt (days self)) (Some (Took (days self))) now).
End GrantVacationCommand.

(** ** Services *)

Module PayrollService.
(** [config] is what [self.config_manager.get_config()] returns. *)
Definition pay_employee (config : gmap string pyval) (now : Z) : Cmd pyval :=
  employee <- get_employee ;;
  payment_strategy <-
    lift (StrategyFactory.create_payment_strategy (Employee.employee_type employee)) ;;
  let command := PayEmployeeCommand.mk payment_strategy config in
  PayEmployeeCommand.execute command now.
End PayrollService.

Module VacationService.
Definition grant_vacation (days : Z) (payout : bool) (now : Z) : Cmd unit :=
  employee <- get_employee ;;
  let vacation_policy :=
    StrategyFactory.create_vacation_policy (Employee.role employee)
                                           (Employee.employee_type employee) in
  let command := GrantVacationCommand.mk vacation_policy days payout in
  GrantVacationCommand.execute command now.
End VacationService.

(** ** Company *)

Module Company.
Definition grant_vacation_to_employee (days : Z) (payout : bool) (now : Z) : Cmd unit :=
  VacationService.grant_vacation days payout now.

Definition add_project_to_freelancer (project_name : string) (amount : spec_float)
  : Cmd unit :=
  employee <- get_employee ;;
  if decide (Employee.employee_type employee <> Some FREELANCER) then
    raise (ValueError OnlyFreelancers)
  else
    let project := Project.mk project_name amount true in
    put_employee (Employee.add_project employee project).

Definition get_employee_history : Cmd (list LogEntry.t) :=
  employee <- get_employee ;;
  _operations <- get_log ;;
  ret (OperationLog.get_operations (Some (Employee.name employee)) _operations).
End Company.

(** ** Values of the enumerations *)

(** [member.value] *)
Definition Role_value (role : Role) : string :=
  match role with
  | INTERN => "intern"
  | MANAGER => "manager"
  | VICE_PRESIDENT => "vice_president"
  end.

Definition EmployeeType_value (employee_type : EmployeeType) : string :=
  match employee_type with
  | SALARIED => "salaried"
  | HOURLY => "hourly"
  | FREELANCER => "freelancer"
  end.

(** ** Employee factory *)

(** [Freelancer(name=..., role=..., employee_type=...)]: the dataclass
    defaults for the other fields, then [__post_init__] overwrites the
    type that was passed. *)
Definition Freelancer (name : string) (role : option Role)
  (employee_type : option EmployeeType) : Employee.t :=
  let self := Employee.mk name role employee_type 25 None None None [] in
  Employee.mk (Employee.name self) (Employee.role self) (Some FREELANCER)
              (Employee.vacation_days self) (Employee.salary self)
              (Employee.hourly_rate self) (Employee.hours_worked self)
              (Employee.projects self).

Module EmployeeFactory.
(** The dictionary [data], restricted to the keys the factory reads and
    to values of the documented types. A field is [None] when the key
    is absent and [Some v] when the key is there with the value [v];
    under the three pay keys the value may itself be Python's [None]
    ([Some None]), which the factory passes on as it is. *)
Record data := mkData {
  d_name : option string;
  d_role : option string;
  d_type : option string;
  d_salary : option (option spec_float);
  d_hourly_rate : option (option spec_float);
  d_hours_worked : option (option Z)
}.

(** What [create_employee] raises: [KeyError] from [data[key]], and the
    [ValueError] of an [Enum] class called on a string that is not one
    of its values. *)
Inductive error :=
  | KeyError (key : string)
  | NotAValue (enum : string) (value : string).

Inductive built (A : Type) :=
  | Built (a : A)
  | Failed (err : error).
Arguments Built {A} a.
Arguments Failed {A} err.

Definition andThen {A B} (r : built A) (k : A -> built B) : built B :=
  match r with
  | Built a => k a
  | Failed err => Failed err
  end.

(** [data[key]] *)
Definition item {A} (key : string) (field : option A) : built A :=
  match field with
  | Some v => Built v
  | None => Failed (KeyError key)
  end.

(** [Role(value)] *)
Definition Role_of (value : string) : built Role :=
  if String.eqb value "intern" then Built INTERN
  else if String.eqb value "manager" then Built MANAGER
  else if String.eqb value "vice_president" then Built VICE_PRESIDENT
  else Failed (NotAValue "Role" value).

(** [EmployeeType(value)] *)
Definition EmployeeType_of (value : string) : built EmployeeType :=
  if String.eqb value "salaried" then Built SALARIED
  else if String.eqb value "hourly" then Built HOURLY
  else if String.eqb value "freelancer" then Built FREELANCER
  else Failed (NotAValue "EmployeeType" value).

(** The last branch of the source, [raise ValueError("Unknown employee
    type")], cannot be reached: [EmployeeType(...)] has returned a
    member. *)
Definition create_employee (d : data) : built Employee.t :=
  andThen (item "name" (d_name d)) (fun name =>
  andThen (item "role" (d_role d)) (fun role_value =>
  andThen (Role_of role_value) (fun role =>
  andThen (item "type" (d_type d)) (fun type_value =>
  andThen (EmployeeType_of type_value) (fun employee_type =>
  match employee_type with
  | SALARIED =>
      andThen (item "salary" (d_salary d)) (fun salary =>
      Built (Employee.mk name (Some role) (Some employee_type) 25
                         salary None None []))
  | HOURLY =>
      andThen (item "hourly_rate" (d_hourly_rate d)) (fun hourly_rate =>
      andThen (item "hours_worked" (d_hours_worked d)) (fun hours_worked =>
      Built (Employee.mk name (Some role) (Some employee_type) 25
                         None hourly_rate hours_worked [])))
  | FREELANCER =>
      Built (Freelancer name (Some role) (Some employee_type))
  end))))).
End EmployeeFactory.

(** ** Paying a list of employees *)

Module Payroll.
(** [PayrollService.pay_all_employees]: the loop
    [for employee in employees: payments[employee.name] = self.pay_employee(employee)].
    The state is the list of employee objects and the log; [clock i] is
    what [datetime.now()] gives in iteration [i]; an exception leaves
    the loop with what was done so far. *)
Fixpoint pay_all_from (config : gmap string pyval) (clock : nat -> Z) (i : nat)
  (employees : list Employee.t) (payments : gmap string pyval)
  (log : list LogEntry.t)
  : (list Employee.t * list LogEntry.t) * outcome (gmap string pyval) :=
  match employees with
  | [] => (([], log), Returned payments)
  | employee :: rest =>
      match PayrollService.pay_employee config (clock i) (mkWorld employee log) with
      | (w, Returned paid) =>
          let payments' := <[Employee.name (the_employee w) := paid]> payments in
          let '((rest', log'), result) :=
            pay_all_from config clock (S i) rest payments' (the_log w) in
          ((the_employee w :: rest', log'), result)
      | (w, Raised ex) => ((the_employee w :: rest, the_log w), Raised ex)
      end
  end.

Definition pay_all_employees (config : gmap string pyval) (clock : nat -> Z)
  (employees : list Employee.t) (log : list LogEntry.t)
  : (list Employee.t * list LogEntry.t) * outcome (gmap string pyval) :=
  pay_all_from config clock 0 employees ∅ log.
End Payroll.

(** ** The company's list of employees *)

Module Staff.
(** The methods of [Company] that work on [self.employees]. *)
Definition add_employee (employee_data : EmployeeFactory.data)
  (employees : list Employee.t)
  : list Employee.t * EmployeeFactory.built Employee.t :=
  match EmployeeFactory.create_employee employee_data with
  | EmployeeFactory.Built employee =>
      ((employees ++ [employee])%list, EmployeeFactory.Built employee)
  | EmployeeFactory.Failed err => (employees, EmployeeFactory.Failed err)
  end.

Definition find_employees_by_role (role : option Role)
  (employees : list Employee.t) : list Employee.t :=
  List.filter (fun emp => bool_decide (Employee.role emp = role)) employees.

Definition find_employees_by_type (employee_type : option EmployeeType)
  (employees : list Employee.t) : list Employee.t :=
  List.filter (fun emp => bool_decide (Employee.employee_type emp = employee_type))
              employees.
End Staff.

(** ** Configuration manager *)

Module ConfigurationManager.
(** The files are a map from path to the dictionary of numbers the JSON
    text of the file denotes; a path outside the map is a file that does
    not exist. *)
Record t := mk {
  config_file : string;
  _config : gmap string pyval
}.

Definition _load_config (config_file : string)
  (files : gmap string (gmap string pyval)) : gmap string pyval :=
  match files !! config_file with
  | Some loaded => loaded
  | None => DEFAULT_CONFIG
  end.

Definition init (config_file : string) (files : gmap string (gmap string pyval)) : t :=
  mk config_file (_load_config config_file files).

Definition get_config (self : t) : gmap string pyval := _config self.

(** How [update_config] ends: normally, or with the [OSError] of a file
    that cannot be opened for writing. *)
Inductive saved := Saved | OSError.

(** [self._config.update(updates)] first, then the file is opened for
    writing and the configuration dumped. [writable] tells whether the
    file can be opened for writing; when it cannot, the exception
    leaves the configuration in memory updated and the file as it was.
    A failure in the middle of the dump is not modelled. *)
Definition update_config (self : t) (updates : gmap string pyval)
  (writable : bool) (files : gmap string (gmap string pyval))
  : (t * gmap string (gmap string pyval)) * saved :=
  let updated := updates ∪ _config self in
  let self' := mk (config_file self) updated in
  if writable then ((self', <[config_file self := updated]> files), Saved)
  else ((self', files), OSError).
End ConfigurationManager.

(** ** Definitions used by the statements *)

(** The balance a granted request leaves: vice presidents keep theirs. *)
Definition balance_after (e : Employee.t) (days : Z) : Z :=
  if decide (Employee.role e = Some VICE_PRESIDENT) then Employee.vacation_days e
  else Employee.vacation_days e - days.

(** The check the command consults. *)
Definition selected_check (policy : VacationPolicy) (e : Employee.t)
  (days : Z) (payout : bool) : bool :=
  if payout then can_payout_vacation policy e days
  else can_take_vacation policy e days.

(** The entry a granted request appends. *)
Definition vacation_entry (e : Employee.t) (days : Z) (payout : bool) (now : Z)
  : LogEntry.t :=
  LogEntry.mk now (if payout then "VACATION_PAYOUT" else "VACATION_TAKEN")
              (Some (Employee.name e)) (PInt days)
              (Some (if payout then PaidOut days else Took days)).

(** The error a refused request raises. *)
Definition vacation_refusal (e : Employee.t) (days : Z) (payout : bool) : exn :=
  ValueError (if payout then CannotPayout days (Employee.name e)
              else CannotTake days (Employee.name e)).

(** Following the specification's wording: a field that the employee's
    declared compensation type requires is unset. *)
Definition required_field_unset (e : Employee.t) : bool :=
  match Employee.employee_type e with
  | Some SALARIED => bool_decide (Employee.salary e = None)
  | Some HOURLY =>
      bool_decide (Employee.hourly_rate e = None)
      || bool_decide (Employee.hours_worked e = None)
  | _ => false
  end.

(** A payment entry: the total as amount, base and bonus as details. *)
Definition payment_entry (e : Employee.t) (total : pyval) (details : Details)
  (now : Z) : LogEntry.t :=
  LogEntry.mk now "PAYMENT" (Some (Employee.name e)) total (Some details).

(** Following the specification's wording, [hoursWorked > threshold]:
    the hours are above the threshold, as numbers. No hours are above a
    NaN or above [+inf]; all are above [-inf]. *)
Definition exceeds (hours : Z) (threshold : pyval) : Prop :=
  match threshold with
  | PInt t => t < hours
  | PFloat S754_nan => False
  | PFloat (S754_infinity negative) => negative = true
  | PFloat f => (float_value f < inject_Z hours)%Q
  | PNone => False
  end.

(** One more amount on a running total: a float sum, an int total (the
    0 a sum starts from) being read as the float it is equal to. *)
Definition plus_amount (total : pyval) (amount : spec_float) : pyval :=
  match total with
  | PFloat t => PFloat (fadd t amount)
  | PInt z => PFloat (fadd (nearest_float z) amount)
  | PNone => PNone
  end.

(** Following the specification's wording: the sum of the amounts of the
    projects whose delivered flag is true, taken in the order of the
    list; an undelivered project contributes nothing. *)
Fixpoint delivered_from (total : pyval) (ps : list Project.t) : pyval :=
  match ps with
  | [] => total
  | p :: ps' =>
      delivered_from (if Project.delivered p
                      then plus_amount total (Project.amount p)
                      else total) ps'
  end.

Definition delivered_total (ps : list Project.t) : pyval :=
  delivered_from (PInt 0) ps.

(** A call of [record], given by the entry it builds. *)
Definition record_call (c : LogEntry.t) (_operations : list LogEntry.t)
  : list LogEntry.t :=
  OperationLog.record (LogEntry.operation c) (LogEntry.employee_name c)
                      (LogEntry.amount c) (LogEntry.details c)
                      (LogEntry.timestamp c) _operations.

(** A sequence of calls of [record], in order. *)
Definition record_all (calls : list LogEntry.t) (_operations : list LogEntry.t)
  : list LogEntry.t :=
  fold_left (fun ops c => record_call c ops) calls _operations.

(** A request for days off or for a payout: day count, payout flag and
    the clock reading when it is made. *)
Definition request : Type := Z * bool * Z.

(** Requests made one after the other through the vacation service; a
    refused request is reported and the next one goes on from the state
    it left, as in [grant_vacation_menu]. *)
Fixpoint grant_each (requests : list request) (w : World) : World :=
  match requests with
  | [] => w
  | (days, payout, now) :: rest =>
      grant_each rest (fst (VacationService.grant_vacation days payout now w))
  end.

(** The day count a vacation entry of the log was recorded with. *)
Definition entry_days (op : LogEntry.t) : Z :=
  match LogEntry.details op with
  | Some (PaidOut days) => days
  | Some (Took days) => days
  | _ => 0
  end.

Definition total_days (ops : list LogEntry.t) : Z :=
  fold_right Z.add 0 (map entry_days ops).

(** An employee that [pay_employee] pays: called on the employee alone,
    with an empty log, it returns a total. *)
Definition pays (cfg : gmap string pyval) (e : Employee.t) : Prop :=
  exists total,
    snd (PayrollService.pay_employee cfg 0 (mkWorld e [])) = Returned total.

(** A payment entry recorded under the name of an employee. *)
Definition paid_under (e : Employee.t) (op : LogEntry.t) : Prop :=
  LogEntry.operation op = "PAYMENT"
  /\ LogEntry.employee_name op = Some (Employee.name e).

(** The amount of the last entry of a list recorded under a name. *)
Definition last_amount (n : string) (ops : list LogEntry.t) : option pyval :=
  LogEntry.amount
    <$> last (List.filter (fun op => bool_decide (LogEntry.employee_name op = Some n))
                          ops).

(** ** Sample employees and log entries *)

Definition alice : Employee.t :=
  Employee.mk "Alice" None (Some HOURLY) 25 None (Some (nearest_float 20))
              (Some 170) [].

Definition alice_config : gmap string pyval :=
  <["hourly_bonus_threshold" := PInt 160]> (<["hourly_bonus_amount" := PInt 100]> ∅).

(** A configuration whose values are not the fallbacks of the command. *)
Definition strict_config : gmap string pyval :=
  <["salaried_bonus_percentage" := PFloat (nearest_float 2)]>
  (<["hourly_bonus_threshold" := PInt 150]>
  (<["hourly_bonus_amount" := PInt 250]> ∅)).

Definition hugo : Employee.t :=
  Employee.mk "Hugo" (Some MANAGER) (Some HOURLY) 25 None (Some (nearest_float 10))
              (Some 155) [].

Definition bob : Employee.t :=
  Employee.mk "Bob" (Some MANAGER) (Some HOURLY) 12 None (Some (nearest_float 30))
              (Some 150) [].

Definition carol : Employee.t :=
  Employee.mk "Carol" (Some VICE_PRESIDENT) (Some SALARIED) 25
              (Some (nearest_float 9000)) None None [].

Definition dana : Employee.t :=
  Employee.mk "Dana" (Some MANAGER) (Some SALARIED) 25 None None None [].

Definition erin : Employee.t :=
  Employee.mk "Erin" None (Some HOURLY) 25 None (Some (nearest_float 15)) None [].

Definition ian : Employee.t :=
  Employee.mk "Ian" (Some INTERN) (Some SALARIED) 25 (Some (nearest_float 1000))
              None None [].

Definition nadia : Employee.t :=
  Employee.mk "Nadia" (Some MANAGER) (Some SALARIED) (-10)
              (Some (nearest_float 5000)) None None [].

Definition frank : Employee.t :=
  Employee.mk "Frank" None (Some FREELANCER) 25 None None None
              [Project.mk "site" (nearest_float 500) true;
               Project.mk "logo" (nearest_float 80) false].

(** A freelancer whose one delivered project is worth 2^53. *)
Definition greta : Employee.t :=
  Employee.mk "Greta" None (Some FREELANCER) 25 None None None
              [Project.mk "plant" (nearest_float (2 ^ 53)) true].

Definition nameless : Employee.t :=
  Employee.mk "" (Some MANAGER) (Some SALARIED) 25 (Some (nearest_float 4000))
              None None [].

Definition bob_entry : LogEntry.t :=
  LogEntry.mk 1 "VACATION_PAYOUT" (Some "Bob") (PInt 10) (Some (PaidOut 10)).

Definition nameless_entry : LogEntry.t :=
  LogEntry.mk 2 "VACATION_TAKEN" (Some "") (PInt 1) (Some (Took 1)).

Definition gina_data : EmployeeFactory.data :=
  EmployeeFactory.mkData (Some "Gina") (Some "manager") (Some "hourly")
                         (Some (Some (nearest_float 7000)))
                         (Some (Some (nearest_float 25))) (Some (Some 168)).

Definition gina : Employee.t :=
  Employee.mk "Gina" (Some MANAGER) (Some HOURLY) 25 None
              (Some (nearest_float 25)) (Some 168) [].

Definition nora_data : EmployeeFactory.data :=
  EmployeeFactory.mkData (Some "Nora") (Some "manager") (Some "salaried")
                         (Some None) None None.

Definition nora : Employee.t :=
  Employee.mk "Nora" (Some MANAGER) (Some SALARIED) 25 None None None [].

(** An hourly employee whose hours are beyond the range of floats. *)
Definition olga : Employee.t :=
  Employee.mk "Olga" (Some MANAGER) (Some HOURLY) 25 None (Some float_tenth)
              (Some (10 ^ 400)) [].

(** * Properties *)

(** ** Worked scenarios of the specification *)

(** Alice, paid by the hour: 20.0 for each of 170 hours, above the
    threshold of 160, with a bonus of 100, is paid 3500.0, and the log
    gains one PAYMENT entry for that amount. *)
Example alice_paid :
  PayrollService.pay_employee alice_config 7 (mkWorld alice [])
  = (mkWorld alice
             [LogEntry.mk 7 "PAYMENT" (Some "Alice") (PFloat (nearest_float 3500))
                          (Some (BaseBonus (nearest_float 3400)
                                           (Some (nearest_float 100))))],
     Returned (PFloat (nearest_float 3500))).
Proof. vm_compute. reflexivity. Qed.

(** Floats as Python has them: 0.1 is the quotient of 1.0 by 10.0;
    adding 1.0 to 2.0 ** 53 gives 2.0 ** 53 again; an int beyond the
    largest float cannot be converted. *)
Example float_samples :
  SFdiv 53 1024 (nearest_float 1) (nearest_float 10) = float_tenth
  /\ fadd (nearest_float (2 ^ 53)) (nearest_float 1) = nearest_float (2 ^ 53)
  /\ float_of_int (2 ^ 53 + 1) = Returned (nearest_float (2 ^ 53))
  /\ float_of_int (10 ^ 400) = Raised OverflowError
  /\ py_mul (PFloat float_tenth) (PInt (10 ^ 400)) = Raised OverflowError
  /\ py_gt (PInt (10 ^ 400)) (PFloat (S754_infinity false)) = Returned false
  /\ py_gt (PInt (2 ^ 53 + 1)) (PFloat (nearest_float (2 ^ 53))) = Returned true.
Proof. vm_compute. repeat split; reflexivity. Qed.

(** Bob, an hourly manager with 12 days: a payout of 10 days goes
    through under the manager cap and leaves 2 days; a payout of 3 more
    days is then refused and the balance stays at 2. *)
Example bob_payouts :
  let w1 := fst (VacationService.grant_vacation 10 true 1 (mkWorld bob [])) in
  VacationService.grant_vacation 10 true 1 (mkWorld bob [])
  = (mkWorld (Employee.set_vacation_days bob 2)
             [LogEntry.mk 1 "VACATION_PAYOUT" (Some "Bob") (PInt 10) (Some (PaidOut 10))],
     Returned tt)
  /\ VacationService.grant_vacation 3 true 2 w1
     = (w1, Raised (ValueError (CannotPayout 3 "Bob")))
  /\ can_payout_vacation HourlyVacation bob 10 = false.
Proof. vm_compute. auto. Qed.

(** Carol, a vice president: 6 days are refused, 5 days are granted and
    the balance is untouched. *)
Example carol_takes :
  VacationService.grant_vacation 6 false 1 (mkWorld carol [])
  = (mkWorld carol [], Raised (ValueError (CannotTake 6 "Carol")))
  /\ VacationService.grant_vacation 5 false 2 (mkWorld carol [])
     = (mkWorld carol
                [LogEntry.mk 2 "VACATION_TAKEN" (Some "Carol") (PInt 5) (Some (Took 5))],
        Returned tt).
Proof. vm_compute. auto. Qed.

(** ** Records and the monad *)

Lemma set_vacation_days_same (e : Employee.t) :
  Employee.set_vacation_days e (Employee.vacation_days e) = e.
Proof. destruct e; reflexivity. Qed.

Lemma world_eta (w : World) : mkWorld (the_employee w) (the_log w) = w.
Proof. destruct w; reflexivity. Qed.

Lemma execute_granted policy days payout now w :
  selected_check policy (the_employee w) days payout = true ->
  GrantVacationCommand.execute (GrantVacationCommand.mk policy days payout) now w
  = (mkWorld (Employee.set_vacation_days (the_employee w)
                (balance_after (the_employee w) days))
             (the_log w ++ [vacation_entry (the_employee w) days payout now]),
     Returned tt).
Proof.
  intros Hchk. destruct w as [e log]. unfold selected_check in Hchk.
  unfold GrantVacationCommand.execute, balance_after, vacation_entry, bind,
    get_employee, put_employee, on_log, ret, raise, OperationLog.record.
  cbn [the_employee the_log GrantVacationCommand.payout
       GrantVacationCommand.vacation_policy GrantVacationCommand.days] in *.
  destruct payout; rewrite Hchk; cbn [negb];
    destruct (decide (Employee.role e <> Some VICE_PRESIDENT)) as [Hne | Heq];
    destruct (decide (Employee.role e = Some VICE_PRESIDENT)) as [Hvp | Hnvp];
    cbn [the_employee the_log]; try contradiction;
    try (exfalso; apply Heq; exact Hnvp);
    try rewrite set_vacation_days_same; reflexivity.
Qed.

Lemma execute_refused policy days payout now w :
  selected_check policy (the_employee w) days payout = false ->
  GrantVacationCommand.execute (GrantVacationCommand.mk policy days payout) now w
  = (w, Raised (vacation_refusal (the_employee w) days payout)).
Proof.
  intros Hchk. unfold selected_check in Hchk.
  unfold GrantVacationCommand.execute, vacation_refusal, bind, get_employee, raise.
  cbn [GrantVacationCommand.payout GrantVacationCommand.vacation_policy
       GrantVacationCommand.days] in *.
  destruct payout; rewrite Hchk; reflexivity.
Qed.

Lemma vacation_command_unfold policy days payout now w :
  GrantVacationCommand.execute (GrantVacationCommand.mk policy days payout) now w
  = if selected_check policy (the_employee w) days payout
    then (mkWorld (Employee.set_vacation_days (the_employee w)
                     (balance_after (the_employee w) days))
                  (the_log w ++ [vacation_entry (the_employee w) days payout now]),
          Returned tt)
    else (w, Raised (vacation_refusal (the_employee w) days payout)).
Proof.
  destruct (selected_check policy (the_employee w) days payout) eqn:Hchk.
  - apply execute_granted; exact Hchk.
  - apply execute_refused; exact Hchk.
Qed.

Lemma grant_vacation_unfold days payout now w :
  VacationService.grant_vacation days payout now w
  = GrantVacationCommand.execute
      (GrantVacationCommand.mk
         (StrategyFactory.create_vacation_policy
            (Employee.role (the_employee w))
            (Employee.employee_type (the_employee w)))
         days payout) now w.
Proof. reflexivity. Qed.

(** ** Policy selection *)

(** C1. Selection is role-first: for an employee whose role is Manager
    the factory returns the Manager policy whatever the compensation
    type, and the payout check that governs the employee is the
    Manager rule: balance at least the days, and at most 10 days. *)
Theorem manager_policy_role_first (e : Employee.t) :
  Employee.role e = Some MANAGER ->
  StrategyFactory.create_vacation_policy (Employee.role e) (Employee.employee_type e)
  = ManagerVacation
  /\ forall days,
       can_payout_vacation
         (StrategyFactory.create_vacation_policy (Employee.role e)
                                                 (Employee.employee_type e))
         e days = true
       <-> (Employee.vacation_days e >= days /\ days <= 10).
Proof.
  intros Hrole.
  assert (Hsel : StrategyFactory.create_vacation_policy
                   (Employee.role e) (Employee.employee_type e) = ManagerVacation).
  { unfold StrategyFactory.create_vacation_policy. rewrite Hrole.
    destruct (decide (Some MANAGER = Some INTERN)) as [H | _]; [discriminate H |].
    destruct (decide (Some MANAGER = Some MANAGER)) as [_ | H];
      [reflexivity | contradiction]. }
  split; [exact Hsel |].
  intros days. rewrite Hsel. cbn [can_payout_vacation].
  rewrite andb_true_iff, Z.geb_le, Z.leb_le. lia.
Qed.

Lemma manager_policy_role_first_witness :
  Employee.role bob = Some MANAGER
  /\ Employee.employee_type bob = Some HOURLY
  /\ StrategyFactory.create_vacation_policy (Employee.role bob)
       (Employee.employee_type bob) = ManagerVacation.
Proof.
  split; [reflexivity | split; [reflexivity |]].
  apply (manager_policy_role_first bob). reflexivity.
Defined.

(** ** Vacation command *)

(** C2. The vacation command is all-or-nothing. When the selected check
    ([can_payout_vacation] for a payout, [can_take_vacation] otherwise)
    holds, the command returns, the balance becomes [balance_after] and
    exactly one entry is appended to the log; when it does not hold, the
    command raises its [ValueError] and leaves the employee and the log
    as they were. *)
Theorem vacation_command_atomic (policy : VacationPolicy) (days : Z)
  (payout : bool) (now : Z) (w : World) :
  let e := the_employee w in
  let result :=
    GrantVacationCommand.execute (GrantVacationCommand.mk policy days payout) now w in
  if selected_check policy e days payout then
    snd result = Returned tt
    /\ Employee.vacation_days (the_employee (fst result)) = balance_after e days
    /\ the_employee (fst result) = Employee.set_vacation_days e (balance_after e days)
    /\ the_log (fst result) = (the_log w ++ [vacation_entry e days payout now])%list
  else
    snd result = Raised (vacation_refusal e days payout)
    /\ fst result = w
    /\ Employee.vacation_days (the_employee (fst result)) = Employee.vacation_days e
    /\ the_log (fst result) = the_log w.
Proof.
  intros e result. subst e result. rewrite vacation_command_unfold.
  destruct (selected_check policy (the_employee w) days payout);
    cbn [fst snd the_employee the_log]; repeat split.
Qed.

(** C3. For a vice president the command never changes the vacation
    balance (nor anything else of the employee), whether it returns or
    raises. *)
Theorem vp_balance_untouched (policy : VacationPolicy) (days : Z)
  (payout : bool) (now : Z) (w : World) :
  Employee.role (the_employee w) = Some VICE_PRESIDENT ->
  let w' := fst (GrantVacationCommand.execute
                   (GrantVacationCommand.mk policy days payout) now w) in
  Employee.vacation_days (the_employee w') = Employee.vacation_days (the_employee w)
  /\ the_employee w' = the_employee w.
Proof.
  intros Hvp w'. subst w'.
  destruct (selected_check policy (the_employee w) days payout) eqn:Hchk.
  - rewrite (execute_granted _ _ _ _ _ Hchk). cbn [fst the_employee].
    unfold balance_after.
    destruct (decide (Employee.role (the_employee w) = Some VICE_PRESIDENT))
      as [_ | Hn]; [| contradiction].
    rewrite set_vacation_days_same. split; reflexivity.
  - rewrite (execute_refused _ _ _ _ _ Hchk). split; reflexivity.
Qed.

Lemma vp_balance_untouched_witness :
  Employee.role (the_employee (mkWorld carol [])) = Some VICE_PRESIDENT
  /\ Employee.vacation_days
       (the_employee (fst (GrantVacationCommand.execute
                             (GrantVacationCommand.mk VPVacation 5 false) 3
                             (mkWorld carol []))))
     = 25.
Proof.
  split; [reflexivity |].
  apply (vp_balance_untouched VPVacation 5 false 3 (mkWorld carol [])).
  reflexivity.
Defined.

(** ** Payment strategies on incomplete employees *)

Lemma py_add_None_l (v : pyval) : py_add PNone v = Raised TypeError.
Proof. reflexivity. Qed.

Lemma py_mul_None_l (v : pyval) : py_mul PNone v = Raised TypeError.
Proof. reflexivity. Qed.

Lemma py_mul_None_r (v : pyval) : py_mul v PNone = Raised TypeError.
Proof. destruct v; reflexivity. Qed.

Lemma py_gt_raises (x y : pyval) (ex : exn) :
  py_gt x y = Raised ex -> ex = TypeError.
Proof. destruct x, y; cbn; congruence. Qed.

(** Paying with a base of [None] raises [TypeError] before the log is
    touched: either the bonus computation raises, or the addition does. *)
Lemma execute_base_None strategy cfg now e log :
  calculate_payment strategy e = Returned PNone ->
  PayEmployeeCommand.execute (PayEmployeeCommand.mk strategy cfg) now (mkWorld e log)
  = (mkWorld e log, Raised TypeError).
Proof.
  intros Hbase.
  unfold PayEmployeeCommand.execute, bind, get_employee, lift.
  cbn [the_employee PayEmployeeCommand.payment_strategy]. rewrite Hbase.
  unfold PayEmployeeCommand._calculate_bonus.
  cbn [PayEmployeeCommand.config].
  destruct (decide (Employee.role e = Some INTERN)); [reflexivity |].
  destruct (decide (Employee.employee_type e = Some SALARIED)); [reflexivity |].
  destruct (decide (Employee.employee_type e = Some HOURLY)); [| reflexivity].
  destruct (py_gt _ _) as [above | ex] eqn:Hgt; cbn [obind].
  - reflexivity.
  - apply py_gt_raises in Hgt. subst ex. reflexivity.
Qed.

(** Paying when the strategy itself raises: the exception goes through
    and the log is not touched. *)
Lemma execute_base_raises strategy cfg now e log ex :
  calculate_payment strategy e = Raised ex ->
  PayEmployeeCommand.execute (PayEmployeeCommand.mk strategy cfg) now (mkWorld e log)
  = (mkWorld e log, Raised ex).
Proof.
  intros Hbase.
  unfold PayEmployeeCommand.execute, bind, get_employee, lift.
  cbn [the_employee PayEmployeeCommand.payment_strategy]. rewrite Hbase.
  reflexivity.
Qed.

(** C4, as the specification states it, fails: the salaried strategy
    hands back the unset salary instead of raising. *)
Lemma salaried_unset_salary_is_returned :
  required_field_unset dana = true
  /\ StrategyFactory.create_payment_strategy (Employee.employee_type dana)
     = Returned SalariedPayment
  /\ calculate_payment SalariedPayment dana = Returned PNone
  /\ ~ (forall e strategy,
          required_field_unset e = true ->
          StrategyFactory.create_payment_strategy (Employee.employee_type e)
          = Returned strategy ->
          exists ex, calculate_payment strategy e = Raised ex).
Proof.
  repeat split; try reflexivity.
  intros Hclaim.
  destruct (Hclaim dana SalariedPayment eq_refl eq_refl) as [ex Hex].
  discriminate Hex.
Qed.

(** C4, amended. When a field required by the declared compensation
    type is unset, the selected strategy never takes it for zero: the
    hourly strategy raises [TypeError]; the salaried strategy returns
    the unset value itself. In both cases the pay command built on the
    strategy raises [TypeError] and leaves the employee and the log as
    they were. *)
Theorem unset_field_payment (e : Employee.t) (strategy : PaymentStrategy) :
  required_field_unset e = true ->
  StrategyFactory.create_payment_strategy (Employee.employee_type e)
  = Returned strategy ->
  ((Employee.employee_type e = Some HOURLY
    /\ calculate_payment strategy e = Raised TypeError)
   \/ (Employee.employee_type e = Some SALARIED
       /\ calculate_payment strategy e = Returned PNone))
  /\ forall cfg now log,
       PayEmployeeCommand.execute (PayEmployeeCommand.mk strategy cfg) now
                                  (mkWorld e log)
       = (mkWorld e log, Raised TypeError).
Proof.
  unfold required_field_unset, StrategyFactory.create_payment_strategy.
  intros Hunset Hsel.
  destruct (Employee.employee_type e) as [[ | | ] | ] eqn:Hty;
    try discriminate Hunset.
  - (* salaried *)
    apply bool_decide_eq_true in Hunset.
    assert (strategy = SalariedPayment) as -> by (vm_compute in Hsel; congruence).
    assert (Hbase : calculate_payment SalariedPayment e = Returned PNone).
    { cbn. rewrite Hunset. reflexivity. }
    split; [right; split; [reflexivity | exact Hbase] |].
    intros cfg now log. apply execute_base_None. exact Hbase.
  - (* hourly *)
    assert (strategy = HourlyPayment) as -> by (vm_compute in Hsel; congruence).
    assert (Hbase : calculate_payment HourlyPayment e = Raised TypeError).
    { cbn. apply orb_true_iff in Hunset.
      destruct Hunset as [H | H]; apply bool_decide_eq_true in H; rewrite H.
      - apply py_mul_None_l.
      - apply py_mul_None_r. }
    split; [left; split; [reflexivity | exact Hbase] |].
    intros cfg now log. apply execute_base_raises. exact Hbase.
Qed.

Lemma unset_field_payment_witness :
  required_field_unset erin = true
  /\ StrategyFactory.create_payment_strategy (Employee.employee_type erin)
     = Returned HourlyPayment
  /\ PayEmployeeCommand.execute (PayEmployeeCommand.mk HourlyPayment ∅) 0
                                (mkWorld erin [])
     = (mkWorld erin [], Raised TypeError).
Proof.
  split; [reflexivity | split; [reflexivity |]].
  apply (unset_field_payment erin HourlyPayment); reflexivity.
Defined.

(** ** Zero and negative day counts *)

(** C5, as the specification states it, fails: an intern's request for
    0 days is refused, for time off and for a payout alike, and nothing
    is logged. *)
Lemma intern_zero_days_refused :
  VacationService.grant_vacation 0 false 1 (mkWorld ian [])
  = (mkWorld ian [], Raised (ValueError (CannotTake 0 "Ian")))
  /\ VacationService.grant_vacation 0 true 1 (mkWorld ian [])
     = (mkWorld ian [], Raised (ValueError (CannotPayout 0 "Ian")))
  /\ ~ (forall w payout now,
          snd (VacationService.grant_vacation 0 payout now w) = Returned tt).
Proof.
  split; [reflexivity | split; [reflexivity |]].
  intros Hclaim. specialize (Hclaim (mkWorld ian []) false 1).
  discriminate Hclaim.
Qed.

(** C5, amended. Under every policy but the intern one, a request for 0
    days by an employee whose balance is not negative (under the vice
    president policy: whatever the balance) is granted, for time off and
    for a payout alike: the employee is left as it was and one entry is
    appended to the log. Under the intern policy it is refused. *)
Theorem zero_days_granted (policy : VacationPolicy) (payout : bool)
  (now : Z) (w : World) :
  policy <> InternVacation ->
  policy = VPVacation \/ 0 <= Employee.vacation_days (the_employee w) ->
  GrantVacationCommand.execute (GrantVacationCommand.mk policy 0 payout) now w
  = (mkWorld (the_employee w)
             (the_log w ++ [vacation_entry (the_employee w) 0 payout now]),
     Returned tt)
  /\ GrantVacationCommand.execute (GrantVacationCommand.mk InternVacation 0 payout)
                                  now w
     = (w, Raised (vacation_refusal (the_employee w) 0 payout)).
Proof.
  intros Hpol Hbal. split.
  - rewrite execute_granted.
    + f_equal. f_equal. unfold balance_after.
      destruct (decide (Employee.role (the_employee w) = Some VICE_PRESIDENT));
        [| rewrite Z.sub_0_r]; apply set_vacation_days_same.
    + unfold selected_check.
      destruct policy, payout; cbn [can_take_vacation can_payout_vacation];
        try contradiction; try reflexivity;
        destruct Hbal as [Hvp | Hge]; try discriminate Hvp;
        rewrite ?andb_true_iff, ?Z.geb_le, ?Z.leb_le; lia.
  - apply execute_refused. destruct payout; reflexivity.
Qed.

Lemma zero_days_granted_witness :
  BasicVacation <> InternVacation
  /\ 0 <= Employee.vacation_days (the_employee (mkWorld alice []))
  /\ GrantVacationCommand.execute (GrantVacationCommand.mk BasicVacation 0 true) 4
                                  (mkWorld alice [])
     = (mkWorld alice [vacation_entry alice 0 true 4], Returned tt).
Proof.
  split; [discriminate | split; [vm_compute; discriminate |]].
  apply (zero_days_granted BasicVacation true 4 (mkWorld alice [])).
  - discriminate.
  - right. vm_compute. discriminate.
Defined.

(** C9, as stated, fails for an employee whose balance lies below the
    negative day count: the check [vacation_days >= days] is then false
    and the request is refused. *)
Lemma negative_days_below_balance_refused :
  VacationService.grant_vacation (-3) false 1 (mkWorld nadia [])
  = (mkWorld nadia [], Raised (ValueError (CannotTake (-3) "Nadia")))
  /\ VacationService.grant_vacation (-3) true 1 (mkWorld nadia [])
     = (mkWorld nadia [], Raised (ValueError (CannotPayout (-3) "Nadia")))
  /\ ~ (forall w days payout now,
          Employee.role (the_employee w) <> Some INTERN ->
          Employee.role (the_employee w) <> Some VICE_PRESIDENT ->
          days < 0 ->
          snd (VacationService.grant_vacation days payout now w) = Returned tt).
Proof.
  split; [reflexivity | split; [reflexivity |]].
  intros Hclaim.
  specialize (Hclaim (mkWorld nadia []) (-3) false 1).
  cbn [the_employee nadia Employee.role] in Hclaim.
  assert (H : snd (VacationService.grant_vacation (-3) false 1 (mkWorld nadia []))
              = Returned tt).
  { apply Hclaim; [discriminate | discriminate | lia]. }
  discriminate H.
Qed.

(** The policy selected for a role that is neither intern nor vice
    president checks the balance, and caps payouts at 5 or 10 days. *)
Lemma selected_check_balance (e : Employee.t) (days : Z) (payout : bool) :
  Employee.role e <> Some INTERN ->
  Employee.role e <> Some VICE_PRESIDENT ->
  days <= Employee.vacation_days e ->
  days <= 5 ->
  selected_check
    (StrategyFactory.create_vacation_policy (Employee.role e)
                                            (Employee.employee_type e))
    e days payout = true.
Proof.
  intros Hni Hnvp Hbal Hcap.
  unfold StrategyFactory.create_vacation_policy, selected_check.
  destruct (decide (Employee.role e = Some INTERN)); [contradiction |].
  destruct (decide (Employee.role e = Some MANAGER));
    [| destruct (decide (Employee.role e = Some VICE_PRESIDENT)); [contradiction |];
       destruct (decide (Employee.employee_type e = Some HOURLY))];
    destruct payout; cbn [can_take_vacation can_payout_vacation];
    rewrite ?andb_true_iff, ?Z.geb_le, ?Z.leb_le; lia.
Qed.

(** C9, amended. The vacation command does not reject negative day
    counts: for an employee whose role is neither intern nor vice
    president (so that the selected policy is the manager, hourly or
    basic one), and a negative day count that is not above the balance
    (any negative count when the balance is not negative), the request
    is granted for time off and for a payout alike, one entry is
    appended to the log, and the balance strictly grows, by the
    absolute value of the count. *)
Theorem negative_days_granted (w : World) (days : Z) (payout : bool) (now : Z) :
  Employee.role (the_employee w) <> Some INTERN ->
  Employee.role (the_employee w) <> Some VICE_PRESIDENT ->
  days < 0 ->
  days <= Employee.vacation_days (the_employee w) ->
  VacationService.grant_vacation days payout now w
  = (mkWorld (Employee.set_vacation_days (the_employee w)
                (Employee.vacation_days (the_employee w) + - days))
             (the_log w ++ [vacation_entry (the_employee w) days payout now]),
     Returned tt)
  /\ Employee.vacation_days (the_employee w)
     < Employee.vacation_days
         (the_employee (fst (VacationService.grant_vacation days payout now w))).
Proof.
  intros Hni Hnvp Hneg Hbal.
  assert (Hrun : VacationService.grant_vacation days payout now w
          = (mkWorld (Employee.set_vacation_days (the_employee w)
                        (Employee.vacation_days (the_employee w) + - days))
                     (the_log w ++ [vacation_entry (the_employee w) days payout now]),
             Returned tt)).
  { rewrite grant_vacation_unfold, execute_granted.
    - unfold balance_after.
      destruct (decide (Employee.role (the_employee w) = Some VICE_PRESIDENT));
        [contradiction |].
      rewrite <- Z.add_opp_r. reflexivity.
    - apply selected_check_balance; try assumption. lia. }
  split; [exact Hrun |].
  rewrite Hrun. cbn [fst the_employee Employee.set_vacation_days Employee.vacation_days].
  lia.
Qed.

Lemma negative_days_granted_witness :
  (-4 <= Employee.vacation_days (the_employee (mkWorld bob [])))
  /\ VacationService.grant_vacation (-4) true 9 (mkWorld bob [])
     = (mkWorld (Employee.set_vacation_days bob 16)
                [vacation_entry bob (-4) true 9],
        Returned tt).
Proof.
  split; [vm_compute; discriminate |].
  apply (negative_days_granted (mkWorld bob []) (-4) true 9).
  - discriminate.
  - discriminate.
  - lia.
  - vm_compute. discriminate.
Defined.

(** Requests that go through the vacation service never drive a balance
    below zero: with the policy selected for the employee, a balance
    that is not negative stays so, whatever the day count and whether
    the request is granted or refused. *)
Lemma grant_vacation_keeps_balance_nonneg (w : World) (days : Z)
  (payout : bool) (now : Z) :
  0 <= Employee.vacation_days (the_employee w) ->
  0 <= Employee.vacation_days
         (the_employee (fst (VacationService.grant_vacation days payout now w))).
Proof.
  intros Hbal. rewrite grant_vacation_unfold, vacation_command_unfold.
  destruct (selected_check _ _ days payout) eqn:Hchk; cbn [fst the_employee];
    [| exact Hbal].
  cbn [Employee.set_vacation_days Employee.vacation_days].
  unfold balance_after.
  destruct (decide (Employee.role (the_employee w) = Some VICE_PRESIDENT))
    as [Hvp | Hnvp]; [exact Hbal |].
  revert Hchk.
  unfold StrategyFactory.create_vacation_policy, selected_check.
  destruct (decide (Employee.role (the_employee w) = Some INTERN));
    [destruct payout; discriminate |].
  destruct (decide (Employee.role (the_employee w) = Some MANAGER));
    [| destruct (decide (Employee.role (the_employee w) = Some VICE_PRESIDENT));
       [contradiction |];
       destruct (decide (Employee.employee_type (the_employee w) = Some HOURLY))];
    destruct payout; cbn [can_take_vacation can_payout_vacation];
    rewrite ?andb_true_iff, ?Z.geb_le; lia.
Qed.

(** ** Pay command *)

Lemma Qgtb_true (x y : Q) : Qgtb x y = true <-> (y < x)%Q.
Proof.
  unfold Qgtb. rewrite (Qgt_alt x y).
  destruct (x ?= y)%Q; split; intros H; congruence.
Qed.

Lemma Qgtb_false (x y : Q) : Qgtb x y = false <-> (x <= y)%Q.
Proof.
  unfold Qgtb. rewrite (Qle_alt x y).
  destruct (x ?= y)%Q; split; intros H; congruence.
Qed.

(** Comparing hours with a threshold that is a number never raises, and
    tells whether the hours are above it. *)
Lemma py_gt_exceeds (hours : Z) (threshold : pyval) :
  threshold <> PNone ->
  exists above,
    py_gt (PInt hours) threshold = Returned above
    /\ (above = true <-> exceeds hours threshold).
Proof.
  intros Hnum. destruct threshold as [| t | f]; [contradiction | |].
  - eexists. split; [reflexivity |].
    cbn [rank_gt exceeds]. rewrite Qgtb_true, <- Zlt_Qlt. reflexivity.
  - eexists. split; [reflexivity |].
    destruct f as [s | [|] | | s m x]; cbn [rank_of_float rank_gt exceeds];
      try (rewrite Qgtb_true; reflexivity);
      split; intros H; try discriminate H; try reflexivity; try contradiction.
Qed.

Lemma float_of_int_raises (z : Z) (ex : exn) :
  float_of_int z = Raised ex -> ex = OverflowError.
Proof.
  unfold float_of_int. destruct (nearest_float z); congruence.
Qed.

(** When base, bonus and their sum are there, the command logs one
    payment and returns the sum. *)
Lemma execute_paid strategy cfg now e log base bonus total :
  calculate_payment strategy e = Returned base ->
  PayEmployeeCommand._calculate_bonus (PayEmployeeCommand.mk strategy cfg) e base
  = Returned bonus ->
  py_add base bonus = Returned total ->
  (exists details,
     PayEmployeeCommand.execute (PayEmployeeCommand.mk strategy cfg) now (mkWorld e log)
     = (mkWorld e (log ++ [payment_entry e total details now]), Returned total))
  \/ PayEmployeeCommand.execute (PayEmployeeCommand.mk strategy cfg) now (mkWorld e log)
     = (mkWorld e log, Raised OverflowError).
Proof.
  intros Hbase Hbonus Hadd.
  unfold PayEmployeeCommand.execute, bind, get_employee, lift, on_log, ret.
  cbn [the_employee the_log PayEmployeeCommand.payment_strategy].
  rewrite Hbase, Hbonus, Hadd.
  destruct base as [| b | b]; [discriminate Hadd | |];
    destruct bonus as [| z | f]; try discriminate Hadd;
    cbn [py_format_2f py_gt];
    repeat (match goal with
            | |- context [float_of_int ?z] =>
                let H := fresh "Hconv" in
                destruct (float_of_int z) as [? | ?] eqn:H;
                  [| apply float_of_int_raises in H; subst];
                  cbn [obind] in *
            | |- context [rank_gt ?a ?b] => destruct (rank_gt a b)
            end);
    try discriminate Hadd;
    try (right; reflexivity);
    try (left; eexists; reflexivity).
Qed.


(** With a float as base, once the sum is there nothing can fail any
    more. *)
Lemma execute_paid_float strategy cfg now e log b bonus total :
  calculate_payment strategy e = Returned (PFloat b) ->
  PayEmployeeCommand._calculate_bonus (PayEmployeeCommand.mk strategy cfg) e (PFloat b)
  = Returned bonus ->
  py_add (PFloat b) bonus = Returned total ->
  exists details,
    PayEmployeeCommand.execute (PayEmployeeCommand.mk strategy cfg) now (mkWorld e log)
    = (mkWorld e (log ++ [payment_entry e total details now]), Returned total).
Proof.
  intros Hbase Hbonus Hadd.
  unfold PayEmployeeCommand.execute, bind, get_employee, lift, on_log, ret.
  cbn [the_employee the_log PayEmployeeCommand.payment_strategy].
  rewrite Hbase, Hbonus, Hadd.
  destruct bonus as [| z | f]; [discriminate Hadd | |];
    cbn [py_format_2f py_gt py_add] in *.
  - destruct (float_of_int z) as [z' | ex]; [| discriminate Hadd].
    destruct (rank_gt _ _); eexists; reflexivity.
  - destruct (rank_gt _ _); eexists; reflexivity.
Qed.

Ltac pay_steps :=
  intros; unfold PayEmployeeCommand.execute, bind, get_employee, lift, on_log, ret;
  cbn [the_employee the_log PayEmployeeCommand.payment_strategy];
  repeat (match goal with
          | H : ?l = _ |- context [?l] => rewrite H; cbn [obind]
          end);
  reflexivity.

(** What the pay command does with the log: its outcome is settled by
    the employee and the configuration alone; when it is a total, one
    entry goes to the end of the log, and when it is an exception the
    world is as it was. *)
Lemma execute_shape strategy cfg e :
  exists r : outcome (pyval * Details),
    forall now log,
      PayEmployeeCommand.execute (PayEmployeeCommand.mk strategy cfg) now
                                 (mkWorld e log)
      = match r with
        | Returned (total, details) =>
            (mkWorld e (log ++ [payment_entry e total details now]), Returned total)
        | Raised ex => (mkWorld e log, Raised ex)
        end.
Proof.
  destruct (calculate_payment strategy e) as [base | ex] eqn:Hbase;
    [| exists (Raised ex); pay_steps].
  destruct (PayEmployeeCommand._calculate_bonus
              (PayEmployeeCommand.mk strategy cfg) e base)
    as [bonus | ex] eqn:Hbonus; [| exists (Raised ex); pay_steps].
  destruct (py_add base bonus) as [total | ex] eqn:Hadd;
    [| exists (Raised ex); pay_steps].
  destruct (py_format_2f base) as [base_shown | ex] eqn:Hshown;
    [| exists (Raised ex); pay_steps].
  destruct (py_gt bonus (PInt 0)) as [[|] | ex] eqn:Hgt;
    [| exists (Returned (total, BaseBonus base_shown None)); pay_steps
     | exists (Raised ex); pay_steps].
  destruct (py_format_2f bonus) as [bonus_shown | ex] eqn:Hbshown;
    [exists (Returned (total, BaseBonus base_shown (Some bonus_shown)))
    | exists (Raised ex)]; pay_steps.
Qed.

Lemma pay_employee_unfold cfg now e log :
  PayrollService.pay_employee cfg now (mkWorld e log)
  = match StrategyFactory.create_payment_strategy (Employee.employee_type e) with
    | Returned strategy =>
        PayEmployeeCommand.execute (PayEmployeeCommand.mk strategy cfg) now
                                   (mkWorld e log)
    | Raised ex => (mkWorld e log, Raised ex)
    end.
Proof.
  unfold PayrollService.pay_employee, bind, get_employee, lift.
  cbn [the_employee].
  destruct (StrategyFactory.create_payment_strategy (Employee.employee_type e));
    reflexivity.
Qed.

Lemma pay_employee_shape cfg e :
  exists r : outcome (pyval * Details),
    forall now log,
      PayrollService.pay_employee cfg now (mkWorld e log)
      = match r with
        | Returned (total, details) =>
            (mkWorld e (log ++ [payment_entry e total details now]), Returned total)
        | Raised ex => (mkWorld e log, Raised ex)
        end.
Proof.
  destruct (StrategyFactory.create_payment_strategy (Employee.employee_type e))
    as [strategy | ex] eqn:Hsel.
  - destruct (execute_shape strategy cfg e) as [r Hr].
    exists r. intros now log. rewrite pay_employee_unfold, Hsel. apply Hr.
  - exists (Raised ex). intros now log. rewrite pay_employee_unfold, Hsel.
    reflexivity.
Qed.

Lemma hourly_base (e : Employee.t) (r : spec_float) (h : Z) :
  Employee.hourly_rate e = Some r ->
  Employee.hours_worked e = Some h ->
  calculate_payment HourlyPayment e = py_mul (PFloat r) (PInt h).
Proof. intros Hr Hh. cbn. rewrite Hr, Hh. reflexivity. Qed.

Lemma py_mul_float_int (r : spec_float) (h : Z) (base : pyval) :
  py_mul (PFloat r) (PInt h) = Returned base ->
  exists b, base = PFloat b.
Proof.
  cbn [py_mul]. destruct (float_of_int h); cbn [obind]; [| discriminate].
  intros [= <-]. eauto.
Qed.

(** C6. For an hourly employee who is not an intern, with the rate and
    the hours set, under a configuration that holds the threshold and
    the bonus amount: the bonus of the pay command, whatever the base,
    is exactly the configured amount when the hours worked are above
    the configured threshold and 0.0 otherwise, in particular 0.0 when
    the hours equal the threshold. When the hours are within the range
    of floats the base is the rate times the hours, what the command
    gives is base + bonus, and when that sum is returned the log gains
    one payment entry with it; when they are not, the multiplication
    raises [OverflowError] and nothing is paid or logged. *)
Theorem hourly_bonus_rule (e : Employee.t) (cfg : gmap string pyval) (now : Z)
  (log : list LogEntry.t) (r : spec_float) (h : Z)
  (threshold bonus_amount : pyval) :
  Employee.employee_type e = Some HOURLY ->
  Employee.role e <> Some INTERN ->
  Employee.hourly_rate e = Some r ->
  Employee.hours_worked e = Some h ->
  cfg !! "hourly_bonus_threshold" = Some threshold ->
  cfg !! "hourly_bonus_amount" = Some bonus_amount ->
  threshold <> PNone ->
  exists bonus,
    (forall base_payment,
       PayEmployeeCommand._calculate_bonus (PayEmployeeCommand.mk HourlyPayment cfg)
                                           e base_payment
       = Returned bonus)
    /\ (exceeds h threshold -> bonus = bonus_amount)
    /\ (~ exceeds h threshold -> bonus = PFloat float_zero)
    /\ (threshold = PInt h -> bonus = PFloat float_zero)
    /\ match float_of_int h with
       | Returned hours =>
           let base := PFloat (fmul r hours) in
           calculate_payment HourlyPayment e = Returned base
           /\ snd (PayrollService.pay_employee cfg now (mkWorld e log))
              = py_add base bonus
           /\ forall total,
                py_add base bonus = Returned total ->
                exists details,
                  PayrollService.pay_employee cfg now (mkWorld e log)
                  = (mkWorld e (log ++ [payment_entry e total details now]),
                     Returned total)
       | Raised _ =>
           PayrollService.pay_employee cfg now (mkWorld e log)
           = (mkWorld e log, Raised OverflowError)
       end.
Proof.
  intros Hty Hrole Hr Hh Hthr Hamt Hnum.
  destruct (py_gt_exceeds h threshold Hnum) as (above & Hgt & Habove).
  exists (if above then bonus_amount else PFloat float_zero).
  assert (Hbonus : forall base_payment,
    PayEmployeeCommand._calculate_bonus (PayEmployeeCommand.mk HourlyPayment cfg)
                                        e base_payment
    = Returned (if above then bonus_amount else PFloat float_zero)).
  { intros base_payment.
    unfold PayEmployeeCommand._calculate_bonus, config_get.
    cbn [PayEmployeeCommand.config].
    destruct (decide (Employee.role e = Some INTERN)); [contradiction |].
    destruct (decide (Employee.employee_type e = Some SALARIED)); [congruence |].
    destruct (decide (Employee.employee_type e = Some HOURLY)); [| contradiction].
    rewrite Hh, Hthr, Hamt. cbn [of_int default from_option id].
    rewrite Hgt. reflexivity. }
  assert (Hpay : PayrollService.pay_employee cfg now (mkWorld e log)
                 = PayEmployeeCommand.execute
                     (PayEmployeeCommand.mk HourlyPayment cfg) now (mkWorld e log)).
  { rewrite pay_employee_unfold, Hty. reflexivity. }
  split; [exact Hbonus |].
  split; [intros Hex; apply Habove in Hex; rewrite Hex; reflexivity |].
  split; [intros Hnex; destruct above; [exfalso; apply Hnex, Habove; reflexivity
                                       | reflexivity] |].
  split; [intros ->; destruct above; [| reflexivity];
          exfalso; assert (Hlt : exceeds h (PInt h)) by (apply Habove; reflexivity);
          cbn in Hlt; lia |].
  destruct (float_of_int h) as [hours | ex] eqn:Hconv.
  - cbv zeta. set (b := fmul r hours).
    assert (Hbase : calculate_payment HourlyPayment e = Returned (PFloat b)).
    { rewrite (hourly_base e r h Hr Hh). cbn [py_mul]. rewrite Hconv. reflexivity. }
    split; [exact Hbase |]. split.
    + rewrite Hpay.
      destruct (py_add (PFloat b) (if above then bonus_amount else PFloat float_zero))
        as [total | ex] eqn:Hadd.
      * destruct (execute_paid_float HourlyPayment cfg now e log b _ total
                    Hbase (Hbonus (PFloat b)) Hadd) as [details Hrun].
        rewrite Hrun. reflexivity.
      * unfold PayEmployeeCommand.execute, bind, get_employee, lift.
        cbn [the_employee PayEmployeeCommand.payment_strategy].
        rewrite Hbase, Hbonus, Hadd. reflexivity.
    + intros total Hadd. rewrite Hpay.
      apply (execute_paid_float HourlyPayment cfg now e log b _ total
               Hbase (Hbonus (PFloat b)) Hadd).
  - rewrite Hpay. apply execute_base_raises.
    rewrite (hourly_base e r h Hr Hh). cbn [py_mul]. rewrite Hconv.
    apply float_of_int_raises in Hconv. subst ex. reflexivity.
Qed.

Lemma hourly_bonus_rule_witness :
  exceeds 155 (PInt 150)
  /\ exists bonus,
       (exceeds 155 (PInt 150) -> bonus = PInt 250)
       /\ snd (PayrollService.pay_employee strict_config 7 (mkWorld hugo []))
          = py_add (PFloat (fmul (nearest_float 10) (nearest_float 155))) bonus.
Proof.
  split; [reflexivity |].
  destruct (hourly_bonus_rule hugo strict_config 7 [] (nearest_float 10) 155
              (PInt 150) (PInt 250))
    as (bonus & _ & Hgt & _ & _ & Hrun);
    [reflexivity | discriminate | reflexivity | reflexivity | reflexivity
    | reflexivity | discriminate |].
  assert (Hconv : float_of_int 155 = Returned (nearest_float 155)) by reflexivity.
  rewrite Hconv in Hrun. destruct Hrun as (_ & Hrun & _).
  exists bonus. split; [exact Hgt | exact Hrun].
Defined.

(** Hugo, 155 hours at 10.0 with a threshold of 150 and a bonus of 250,
    is paid 1800.0; Olga, whose hours are beyond the range of floats,
    is not paid: the multiplication raises and nothing is logged. *)
Example hourly_payments :
  PayrollService.pay_employee strict_config 7 (mkWorld hugo [])
  = (mkWorld hugo
             [payment_entry hugo (PFloat (nearest_float 1800))
                            (BaseBonus (nearest_float 1550) (Some (nearest_float 250)))
                            7],
     Returned (PFloat (nearest_float 1800)))
  /\ PayrollService.pay_employee strict_config 7 (mkWorld olga [])
     = (mkWorld olga [], Raised OverflowError).
Proof. vm_compute. split; reflexivity. Qed.
(** ** Freelance payment *)

Lemma filter_snoc {A} (f : A -> bool) (l : list A) (x : A) :
  List.filter f (l ++ [x]) = (List.filter f l ++ (if f x then [x] else []))%list.
Proof. rewrite List.filter_app. reflexivity. Qed.

Lemma py_sum_snoc (items : list pyval) (x : pyval) :
  py_sum (items ++ [x]) = obind (py_sum items) (fun total => py_add total x).
Proof. unfold py_sum. rewrite fold_left_app. reflexivity. Qed.

(** A total that [sum] can hold while it adds floats: the int 0 it
    starts from, or a float. *)
Lemma py_add_running (total : pyval) (amount : spec_float) :
  total = PInt 0 \/ (exists t, total = PFloat t) ->
  py_add total (PFloat amount) = Returned (plus_amount total amount).
Proof. intros [-> | [t ->]]; reflexivity. Qed.

Lemma py_sum_running (amounts : list spec_float) :
  forall total,
    total = PInt 0 \/ (exists t, total = PFloat t) ->
    fold_left (fun acc item => obind acc (fun t => py_add t item))
              (map PFloat amounts) (Returned total)
    = Returned (fold_left plus_amount amounts total).
Proof.
  induction amounts as [| x amounts IH]; intros total Htotal; cbn [map fold_left].
  - reflexivity.
  - cbn [obind]. rewrite (py_add_running total x Htotal).
    apply IH. right. destruct Htotal as [-> | [t ->]]; cbn [plus_amount]; eauto.
Qed.

Lemma delivered_from_fold (ps : list Project.t) :
  forall total,
    delivered_from total ps
    = fold_left plus_amount
                (map Project.amount (List.filter Project.delivered ps)) total.
Proof.
  induction ps as [| p ps IH]; intros total; cbn [delivered_from List.filter].
  - reflexivity.
  - rewrite IH. destruct (Project.delivered p); reflexivity.
Qed.

Lemma delivered_from_running (ps : list Project.t) :
  forall total,
    total = PInt 0 \/ (exists t, total = PFloat t) ->
    delivered_from total ps = PInt 0 \/ exists t, delivered_from total ps = PFloat t.
Proof.
  induction ps as [| p ps IH]; intros total Htotal; cbn [delivered_from].
  - exact Htotal.
  - apply IH. destruct (Project.delivered p); [| exact Htotal].
    right. destruct Htotal as [-> | [t ->]]; cbn [plus_amount]; eauto.
Qed.

Lemma delivered_total_running (ps : list Project.t) :
  delivered_total ps = PInt 0 \/ exists t, delivered_total ps = PFloat t.
Proof. apply delivered_from_running. left. reflexivity. Qed.

Lemma freelance_base (e : Employee.t) :
  calculate_payment FreelancePayment e
  = Returned (delivered_total (Employee.projects e)).
Proof.
  unfold calculate_payment, Employee.get_delivered_projects, delivered_total, py_sum.
  rewrite delivered_from_fold, <- py_sum_running by (left; reflexivity).
  rewrite map_map. reflexivity.
Qed.

(** C7. The base the freelance strategy computes is the sum of the
    amounts of exactly the delivered projects, added in the order of the
    list as Python adds floats, the int 0 when there is none; only the
    delivered projects matter, and adding an undelivered project to the
    employee's list does not change the base. *)
Theorem freelance_base_delivered_only (e : Employee.t) :
  calculate_payment FreelancePayment e
  = Returned (delivered_total (Employee.projects e))
  /\ calculate_payment FreelancePayment e
     = calculate_payment FreelancePayment
         (Employee.set_projects e (Employee.get_delivered_projects e))
  /\ (Employee.get_delivered_projects e = [] ->
      calculate_payment FreelancePayment e = Returned (PInt 0))
  /\ forall project_name amount,
       calculate_payment FreelancePayment
         (Employee.add_project e (Project.mk project_name amount false))
       = calculate_payment FreelancePayment e.
Proof.
  split; [apply freelance_base |]. split; [| split].
  - unfold calculate_payment, Employee.get_delivered_projects.
    cbn [Employee.set_projects Employee.projects].
    f_equal. f_equal.
    induction (Employee.projects e) as [| p ps IH]; cbn [List.filter];
      [reflexivity |].
    destruct (Project.delivered p) eqn:Hp; cbn [List.filter];
      [rewrite Hp; f_equal |]; exact IH.
  - intros Hnone. unfold calculate_payment. rewrite Hnone. reflexivity.
  - intros project_name amount.
    unfold calculate_payment, Employee.get_delivered_projects, Employee.add_project.
    cbn [Employee.set_projects Employee.projects].
    rewrite filter_snoc. cbn [Project.delivered].
    rewrite app_nil_r. reflexivity.
Qed.

Lemma add_project_unfold (w : World) (project_name : string) (amount : spec_float) :
  Company.add_project_to_freelancer project_name amount w
  = if decide (Employee.employee_type (the_employee w) = Some FREELANCER)
    then (mkWorld (Employee.add_project (the_employee w)
                     (Project.mk project_name amount true))
                  (the_log w),
          Returned tt)
    else (w, Raised (ValueError OnlyFreelancers)).
Proof.
  unfold Company.add_project_to_freelancer, bind, get_employee, raise, put_employee.
  destruct (decide (Employee.employee_type (the_employee w) = Some FREELANCER))
    as [Hfree | Hnot];
    destruct (decide (Employee.employee_type (the_employee w) <> Some FREELANCER))
      as [Hne | Heq]; try reflexivity; contradiction.
Qed.

(** C10, as stated, fails: floats are added with rounding. Greta's one
    delivered project is worth 2.0 ** 53; a project of 1.0 added through
    the company is delivered at once, yet the base is 2.0 ** 53 before
    and after: it has not grown by the amount. *)
Lemma added_amount_lost_in_rounding :
  let w' := fst (Company.add_project_to_freelancer "extra" (nearest_float 1)
                   (mkWorld greta [])) in
  calculate_payment FreelancePayment greta
  = Returned (PFloat (nearest_float (2 ^ 53)))
  /\ calculate_payment FreelancePayment (the_employee w')
     = Returned (PFloat (nearest_float (2 ^ 53)))
  /\ (float_value (nearest_float 1) == 1)%Q
  /\ ~ (forall w project_name amount base base',
          Employee.employee_type (the_employee w) = Some FREELANCER ->
          calculate_payment FreelancePayment (the_employee w)
          = Returned (PFloat base) ->
          calculate_payment FreelancePayment
            (the_employee
               (fst (Company.add_project_to_freelancer project_name amount w)))
          = Returned (PFloat base') ->
          (float_value base' == float_value base + float_value amount)%Q).
Proof.
  cbv zeta. split; [vm_compute; reflexivity |].
  split; [vm_compute; reflexivity |].
  split; [vm_compute; reflexivity |].
  intros Hclaim.
  specialize (Hclaim (mkWorld greta []) "extra" (nearest_float 1)
                (nearest_float (2 ^ 53)) (nearest_float (2 ^ 53))).
  assert (H : (float_value (nearest_float (2 ^ 53))
               == float_value (nearest_float (2 ^ 53))
                  + float_value (nearest_float 1))%Q).
  { apply Hclaim; vm_compute; reflexivity. }
  vm_compute in H. discriminate H.
Qed.

(** C10, amended. The company's add-project operation refuses an
    employee that is not a freelancer; for a freelancer it appends a
    project whose delivered flag is already true, so that the base the
    freelance strategy computes becomes the former base plus the
    project's amount as Python adds floats, that is rounded to a
    float. *)
Theorem add_project_counts_at_once (w : World) (project_name : string)
  (amount : spec_float) :
  if decide (Employee.employee_type (the_employee w) = Some FREELANCER) then
    Company.add_project_to_freelancer project_name amount w
    = (mkWorld (Employee.add_project (the_employee w)
                  (Project.mk project_name amount true))
               (the_log w),
       Returned tt)
    /\ calculate_payment FreelancePayment
         (the_employee
            (fst (Company.add_project_to_freelancer project_name amount w)))
       = obind (calculate_payment FreelancePayment (the_employee w))
               (fun base => py_add base (PFloat amount))
    /\ exists base,
         calculate_payment FreelancePayment (the_employee w) = Returned base
         /\ calculate_payment FreelancePayment
              (the_employee
                 (fst (Company.add_project_to_freelancer project_name amount w)))
            = Returned (plus_amount base amount)
  else
    Company.add_project_to_freelancer project_name amount w
    = (w, Raised (ValueError OnlyFreelancers)).
Proof.
  rewrite add_project_unfold.
  destruct (decide (Employee.employee_type (the_employee w) = Some FREELANCER))
    as [Hfree | Hnot]; [| reflexivity].
  split; [reflexivity |]. cbn [fst the_employee].
  assert (Hsnoc :
    calculate_payment FreelancePayment
      (Employee.add_project (the_employee w) (Project.mk project_name amount true))
    = obind (calculate_payment FreelancePayment (the_employee w))
            (fun base => py_add base (PFloat amount))).
  { unfold calculate_payment, Employee.get_delivered_projects, Employee.add_project.
    cbn [Employee.set_projects Employee.projects].
    rewrite filter_snoc. cbn [Project.delivered].
    rewrite map_app. cbn [map Project.amount]. apply py_sum_snoc. }
  split; [exact Hsnoc |].
  exists (delivered_total (Employee.projects (the_employee w))).
  split; [apply freelance_base |].
  rewrite Hsnoc, freelance_base. cbn [obind].
  apply py_add_running. apply delivered_total_running.
Qed.

Example frank_projects :
  calculate_payment FreelancePayment frank = Returned (PFloat (nearest_float 500))
  /\ Company.add_project_to_freelancer "app" (nearest_float 120) (mkWorld frank [])
     = (mkWorld (Employee.add_project frank
                   (Project.mk "app" (nearest_float 120) true)) [],
        Returned tt)
  /\ calculate_payment FreelancePayment
       (Employee.add_project frank (Project.mk "app" (nearest_float 120) true))
     = Returned (PFloat (nearest_float 620))
  /\ Company.add_project_to_freelancer "app" (nearest_float 120) (mkWorld alice [])
     = (mkWorld alice [], Raised (ValueError OnlyFreelancers)).
Proof. vm_compute. auto. Qed.
(** ** Operation log queries *)

Lemma record_call_snoc (c : LogEntry.t) (ops : list LogEntry.t) :
  record_call c ops = (ops ++ [c])%list.
Proof. destruct c; reflexivity. Qed.

Lemma record_all_app (calls ops : list LogEntry.t) :
  record_all calls ops = (ops ++ calls)%list.
Proof.
  unfold record_all. revert ops.
  induction calls as [| c calls IH]; intros ops; cbn [fold_left].
  - rewrite app_nil_r. reflexivity.
  - rewrite IH, record_call_snoc, <- app_assoc. reflexivity.
Qed.

Lemma bool_filter_sublist {A} (f : A -> bool) (l : list A) :
  sublist (List.filter f l) l.
Proof.
  induction l as [| x l IH]; cbn [List.filter].
  - constructor.
  - destruct (f x); constructor; exact IH.
Qed.

(** Without a filter the query gives every recorded entry, in the order
    of the calls. *)
Lemma get_operations_unfiltered (calls : list LogEntry.t) :
  OperationLog.get_operations None (record_all calls []) = calls.
Proof. rewrite record_all_app. reflexivity. Qed.

(** With a name that is not empty the query gives exactly the entries
    recorded under that name, in the order of the calls. *)
Lemma get_operations_named (n : string) (calls : list LogEntry.t) :
  n <> "" ->
  let result := OperationLog.get_operations (Some n) (record_all calls []) in
  (forall op, In op result <-> In op calls /\ LogEntry.employee_name op = Some n)
  /\ sublist result calls.
Proof.
  intros Hn result. subst result. rewrite record_all_app. cbn [app].
  unfold OperationLog.get_operations, truthy.
  apply String.eqb_neq in Hn. rewrite Hn. cbn [negb].
  split.
  - intros op. rewrite List.filter_In, bool_decide_eq_true. reflexivity.
  - apply bool_filter_sublist.
Qed.

(** C8 at the empty name. After Bob's payout and a day off of the
    employee whose name is the empty string, the query filtered by the
    empty name, which is the history of that employee, gives both
    entries: Bob's entry is in the result although its name differs
    from the filter. *)
Theorem empty_name_query_returns_all :
  let log := record_all [bob_entry; nameless_entry] [] in
  snd (VacationService.grant_vacation 1 false 2
         (fst (VacationService.grant_vacation 10 true 1 (mkWorld bob []))))
  = Returned tt
  /\ OperationLog.get_operations (Some "") log = [bob_entry; nameless_entry]
  /\ Company.get_employee_history (mkWorld nameless log)
     = (mkWorld nameless log, Returned [bob_entry; nameless_entry])
  /\ In bob_entry (OperationLog.get_operations (Some "") log)
  /\ LogEntry.employee_name bob_entry <> Some "".
Proof.
  cbv zeta.
  split; [reflexivity |].
  split; [reflexivity |].
  split; [reflexivity |].
  split; [left; reflexivity | discriminate].
Qed.

(** * Further properties of the code *)

(** ** Pay command: effects and outcomes *)

(** The two ways [pay_employee] can end. *)
Lemma pay_employee_cases cfg now e log :
  (exists total details,
     PayrollService.pay_employee cfg now (mkWorld e log)
     = (mkWorld e (log ++ [payment_entry e total details now]), Returned total))
  \/ (exists ex,
        PayrollService.pay_employee cfg now (mkWorld e log)
        = (mkWorld e log, Raised ex)).
Proof.
  destruct (pay_employee_shape cfg e) as [[[total details] | ex] Hr];
    rewrite Hr; [left | right]; eauto.
Qed.

(** X1. The pay command never changes the employee. When it returns,
    the log has gained exactly one entry, a PAYMENT under the employee's
    name and the given clock reading whose amount is the returned
    total; when it raises, the log is as it was. *)
Theorem pay_command_effect (strategy : PaymentStrategy) (cfg : gmap string pyval)
  (now : Z) (w : World) :
  let result :=
    PayEmployeeCommand.execute (PayEmployeeCommand.mk strategy cfg) now w in
  the_employee (fst result) = the_employee w
  /\ match snd result with
     | Returned total =>
         exists entry,
           the_log (fst result) = (the_log w ++ [entry])%list
           /\ LogEntry.operation entry = "PAYMENT"
           /\ LogEntry.employee_name entry = Some (Employee.name (the_employee w))
           /\ LogEntry.timestamp entry = now
           /\ LogEntry.amount entry = total
     | Raised _ => the_log (fst result) = the_log w
     end.
Proof.
  destruct w as [e log]. cbv zeta.
  destruct (execute_shape strategy cfg e) as [[[total details] | ex] Hr];
    rewrite Hr; cbn [fst snd the_employee the_log]; split; try reflexivity.
  exists (payment_entry e total details now). repeat split.
Qed.

(** Numbers combine into numbers, or overflow. *)
Lemma py_add_numbers (x y : pyval) :
  x <> PNone -> y <> PNone ->
  (exists v, py_add x y = Returned v /\ v <> PNone)
  \/ py_add x y = Raised OverflowError.
Proof.
  intros Hx Hy. destruct x as [| a | a], y as [| b | b]; try contradiction;
    cbn [py_add];
    try (left; eexists; split; [reflexivity | discriminate]);
    match goal with
    | |- context [float_of_int ?z] =>
        destruct (float_of_int z) as [? | ex] eqn:Hconv;
          [left; eexists; split; [reflexivity | discriminate]
          | right; apply float_of_int_raises in Hconv; subst ex; reflexivity]
    end.
Qed.

Lemma py_mul_numbers (x y : pyval) :
  x <> PNone -> y <> PNone ->
  (exists v, py_mul x y = Returned v /\ v <> PNone)
  \/ py_mul x y = Raised OverflowError.
Proof.
  intros Hx Hy. destruct x as [| a | a], y as [| b | b]; try contradiction;
    cbn [py_mul];
    try (left; eexists; split; [reflexivity | discriminate]);
    match goal with
    | |- context [float_of_int ?z] =>
        destruct (float_of_int z) as [? | ex] eqn:Hconv;
          [left; eexists; split; [reflexivity | discriminate]
          | right; apply float_of_int_raises in Hconv; subst ex; reflexivity]
    end.
Qed.

Lemma config_get_number (cfg : gmap string pyval) (key : string) (dflt : pyval) :
  (forall k, cfg !! k <> Some PNone) -> dflt <> PNone ->
  config_get cfg key dflt <> PNone.
Proof.
  intros Hcfg Hdflt. unfold config_get.
  destruct (cfg !! key) as [v |] eqn:Hkey; cbn [default from_option id];
    [| exact Hdflt].
  intros ->. apply (Hcfg key). exact Hkey.
Qed.

(** With numbers everywhere the bonus is a number, or overflows. *)
Lemma bonus_numbers strategy cfg e base :
  base <> PNone ->
  (forall k, cfg !! k <> Some PNone) ->
  (Employee.employee_type e = Some HOURLY -> Employee.hours_worked e <> None) ->
  (exists bonus,
     PayEmployeeCommand._calculate_bonus (PayEmployeeCommand.mk strategy cfg) e base
     = Returned bonus /\ bonus <> PNone)
  \/ PayEmployeeCommand._calculate_bonus (PayEmployeeCommand.mk strategy cfg) e base
     = Raised OverflowError.
Proof.
  intros Hbase Hcfg Hhours.
  unfold PayEmployeeCommand._calculate_bonus. cbn [PayEmployeeCommand.config].
  destruct (decide (Employee.role e = Some INTERN));
    [left; eexists; split; [reflexivity | discriminate] |].
  destruct (decide (Employee.employee_type e = Some SALARIED)).
  { apply py_mul_numbers; [exact Hbase |].
    apply config_get_number; [exact Hcfg | discriminate]. }
  destruct (decide (Employee.employee_type e = Some HOURLY)) as [Hty |];
    [| left; eexists; split; [reflexivity | discriminate]].
  destruct (Employee.hours_worked e) as [h |] eqn:Hh;
    [| exfalso; apply (Hhours Hty); reflexivity].
  cbn [of_int].
  destruct (py_gt_exceeds h (config_get cfg "hourly_bonus_threshold" (PInt 160)))
    as (above & Hgt & _);
    [apply config_get_number; [exact Hcfg | discriminate] |].
  rewrite Hgt. cbn [obind]. left. eexists. split; [reflexivity |].
  destruct above; [| discriminate].
  apply config_get_number; [exact Hcfg | discriminate].
Qed.

Lemma execute_numbers strategy cfg now e log base :
  calculate_payment strategy e = Returned base ->
  base <> PNone ->
  (forall k, cfg !! k <> Some PNone) ->
  (Employee.employee_type e = Some HOURLY -> Employee.hours_worked e <> None) ->
  (exists total details,
     PayEmployeeCommand.execute (PayEmployeeCommand.mk strategy cfg) now (mkWorld e log)
     = (mkWorld e (log ++ [payment_entry e total details now]), Returned total))
  \/ PayEmployeeCommand.execute (PayEmployeeCommand.mk strategy cfg) now (mkWorld e log)
     = (mkWorld e log, Raised OverflowError).
Proof.
  intros Hbase Hnum Hcfg Hhours.
  destruct (bonus_numbers strategy cfg e base Hnum Hcfg Hhours)
    as [(bonus & Hbonus & Hbnum) | Hbonus].
  - destruct (py_add_numbers base bonus Hnum Hbnum) as [(total & Hadd & _) | Hadd].
    + destruct (execute_paid strategy cfg now e log base bonus total
                  Hbase Hbonus Hadd) as [[details Hrun] | Hrun];
        [left; eauto | right; exact Hrun].
    + right. pay_steps.
  - right. pay_steps.
Qed.

Lemma pay_employee_unknown_type cfg now e log :
  Employee.employee_type e = None ->
  PayrollService.pay_employee cfg now (mkWorld e log)
  = (mkWorld e log, Raised (ValueError UnknownEmployeeType)).
Proof. intros Hty. rewrite pay_employee_unfold, Hty. reflexivity. Qed.

Lemma pay_employee_unset cfg now e log :
  required_field_unset e = true ->
  PayrollService.pay_employee cfg now (mkWorld e log)
  = (mkWorld e log, Raised TypeError).
Proof.
  intros Hunset. rewrite pay_employee_unfold.
  unfold required_field_unset in Hunset.
  destruct (Employee.employee_type e) as [[ | | ] | ] eqn:Hty;
    try discriminate Hunset.
  - change (StrategyFactory.create_payment_strategy (Some SALARIED))
      with (Returned SalariedPayment). cbv beta iota.
    apply bool_decide_eq_true in Hunset.
    apply execute_base_None. cbn. rewrite Hunset. reflexivity.
  - change (StrategyFactory.create_payment_strategy (Some HOURLY))
      with (Returned HourlyPayment). cbv beta iota.
    apply execute_base_raises. cbn.
    apply orb_true_iff in Hunset.
    destruct Hunset as [H | H]; apply bool_decide_eq_true in H; rewrite H.
    + apply py_mul_None_l.
    + apply py_mul_None_r.
Qed.

(** With a known type, the fields of the type set and numbers in the
    configuration, the employee is paid unless a number overflows. *)
Lemma pay_employee_well_formed cfg now e log :
  Employee.employee_type e <> None ->
  required_field_unset e = false ->
  (forall k, cfg !! k <> Some PNone) ->
  (exists total details,
     PayrollService.pay_employee cfg now (mkWorld e log)
     = (mkWorld e (log ++ [payment_entry e total details now]), Returned total))
  \/ PayrollService.pay_employee cfg now (mkWorld e log)
     = (mkWorld e log, Raised OverflowError).
Proof.
  intros Hty Hset Hcfg. rewrite pay_employee_unfold.
  unfold required_field_unset in Hset.
  destruct (Employee.employee_type e) as [[ | | ] | ] eqn:Hty'; [| | | congruence].
  - change (StrategyFactory.create_payment_strategy (Some SALARIED))
      with (Returned SalariedPayment). cbv beta iota.
    apply bool_decide_eq_false in Hset.
    destruct (Employee.salary e) as [s |] eqn:Hs; [| congruence].
    apply (execute_numbers SalariedPayment cfg now e log (PFloat s));
      [cbn; rewrite Hs; reflexivity | discriminate | exact Hcfg | congruence].
  - change (StrategyFactory.create_payment_strategy (Some HOURLY))
      with (Returned HourlyPayment). cbv beta iota.
    apply orb_false_iff in Hset. destruct Hset as [Hr Hh].
    apply bool_decide_eq_false in Hr, Hh.
    destruct (Employee.hourly_rate e) as [r |] eqn:Hr'; [| congruence].
    destruct (Employee.hours_worked e) as [h |] eqn:Hh'; [| congruence].
    destruct (py_mul_numbers (PFloat r) (PInt h)) as [(base & Hmul & Hnum) | Hmul];
      [discriminate | discriminate | |].
    + apply (execute_numbers HourlyPayment cfg now e log base);
        [rewrite (hourly_base e r h Hr' Hh'); exact Hmul | exact Hnum | exact Hcfg
        | rewrite Hh'; discriminate].
    + right. apply execute_base_raises.
      rewrite (hourly_base e r h Hr' Hh'). exact Hmul.
  - change (StrategyFactory.create_payment_strategy (Some FREELANCER))
      with (Returned FreelancePayment). cbv beta iota.
    apply (execute_numbers FreelancePayment cfg now e log
             (delivered_total (Employee.projects e)));
      [apply freelance_base | | exact Hcfg | congruence].
    destruct (delivered_total_running (Employee.projects e)) as [-> | [t ->]];
      discriminate.
Qed.

(** X2. The errors of [pay_employee], under a configuration that holds
    numbers. It raises [ValueError] exactly when the compensation type
    is not a member of the enumeration, and [TypeError] exactly when a
    field that the type requires is unset. Otherwise it returns a
    total, or raises [OverflowError] when an int is beyond the range of
    floats. Whenever it raises, the employee and the log are as they
    were. *)
Theorem pay_employee_error_kinds (cfg : gmap string pyval) (now : Z) (w : World) :
  (forall key, cfg !! key <> Some PNone) ->
  let e := the_employee w in
  let result := PayrollService.pay_employee cfg now w in
  (Employee.employee_type e = None
   <-> snd result = Raised (ValueError UnknownEmployeeType))
  /\ (required_field_unset e = true <-> snd result = Raised TypeError)
  /\ ((exists ex, snd result = Raised ex) -> fst result = w)
  /\ (Employee.employee_type e <> None ->
      required_field_unset e = false ->
      (exists total, snd result = Returned total)
      \/ snd result = Raised OverflowError).
Proof.
  intros Hcfg. destruct w as [e log]. cbv zeta. cbn [the_employee].
  assert (Hcases :
    (Employee.employee_type e = None
     /\ PayrollService.pay_employee cfg now (mkWorld e log)
        = (mkWorld e log, Raised (ValueError UnknownEmployeeType)))
    \/ (Employee.employee_type e <> None /\ required_field_unset e = true
        /\ PayrollService.pay_employee cfg now (mkWorld e log)
           = (mkWorld e log, Raised TypeError))
    \/ (Employee.employee_type e <> None /\ required_field_unset e = false
        /\ ((exists total details,
               PayrollService.pay_employee cfg now (mkWorld e log)
               = (mkWorld e (log ++ [payment_entry e total details now]),
                  Returned total))
            \/ PayrollService.pay_employee cfg now (mkWorld e log)
               = (mkWorld e log, Raised OverflowError)))).
  { destruct (Employee.employee_type e) as [ty |] eqn:Hty.
    - right. destruct (required_field_unset e) eqn:Hunset.
      + left. split; [discriminate | split; [reflexivity |]].
        apply pay_employee_unset. exact Hunset.
      + right. split; [discriminate | split; [reflexivity |]].
        apply pay_employee_well_formed; [rewrite Hty; discriminate | exact Hunset
                                        | exact Hcfg].
    - left. split; [reflexivity |]. apply pay_employee_unknown_type. exact Hty. }
  assert (Hunknown : Employee.employee_type e = None ->
                     required_field_unset e = false).
  { intros Hty. unfold required_field_unset. rewrite Hty. reflexivity. }
  destruct Hcases as [[Hty Hrun] | [(Hty & Hunset & Hrun)
                                   | (Hty & Hset & [(total & details & Hrun) | Hrun])]];
    rewrite Hrun; cbn [fst snd];
    (split; [split; [intros H | intros H] |
     split; [split; [intros H | intros H] |
     split; [intros [ex H] | intros H1 H2]]]);
    try reflexivity; try congruence; try discriminate H;
    try (rewrite (Hunknown Hty) in H; discriminate H);
    try (left; eexists; reflexivity);
    try (right; reflexivity).
Qed.

Lemma pay_employee_error_kinds_witness :
  Employee.employee_type (the_employee (mkWorld olga [])) <> None
  /\ required_field_unset (the_employee (mkWorld olga [])) = false
  /\ ((exists total,
         snd (PayrollService.pay_employee ∅ 7 (mkWorld olga [])) = Returned total)
      \/ snd (PayrollService.pay_employee ∅ 7 (mkWorld olga []))
         = Raised OverflowError).
Proof.
  split; [discriminate | split; [reflexivity |]].
  apply (pay_employee_error_kinds ∅ 7 (mkWorld olga []));
    [intros key; rewrite lookup_empty | |]; discriminate || reflexivity.
Defined.

(** ** Bonus rules by role and compensation type *)

Lemma fadd_zero_r (x : spec_float) :
  fadd x float_zero = match x with S754_zero _ => float_zero | _ => x end.
Proof. destruct x as [[|] | | |]; reflexivity. Qed.

(** X3. An intern gets no bonus, whatever the compensation type, the
    configuration and the base: the bonus computation gives 0.0 even for
    a base of [None], and when the strategy gives a number the command
    returns that base plus 0.0, which is the base itself (0.0 for a
    base of -0.0), and logs it without a bonus part. *)
Theorem intern_never_gets_bonus (strategy : PaymentStrategy)
  (cfg : gmap string pyval) (now : Z) (e : Employee.t) (log : list LogEntry.t)
  (base : pyval) (shown : spec_float) :
  Employee.role e = Some INTERN ->
  calculate_payment strategy e = Returned base ->
  py_format_2f base = Returned shown ->
  (forall v, PayEmployeeCommand._calculate_bonus
               (PayEmployeeCommand.mk strategy cfg) e v
             = Returned (PFloat float_zero))
  /\ PayEmployeeCommand.execute (PayEmployeeCommand.mk strategy cfg) now
       (mkWorld e log)
     = (mkWorld e (log ++ [LogEntry.mk now "PAYMENT" (Some (Employee.name e))
                                       (PFloat (fadd shown float_zero))
                                       (Some (BaseBonus shown None))]),
        Returned (PFloat (fadd shown float_zero)))
  /\ fadd shown float_zero
     = match shown with S754_zero _ => float_zero | _ => shown end.
Proof.
  intros Hrole Hbase Hshown.
  assert (Hbonus : forall v,
    PayEmployeeCommand._calculate_bonus (PayEmployeeCommand.mk strategy cfg) e v
    = Returned (PFloat float_zero)).
  { intros v. unfold PayEmployeeCommand._calculate_bonus.
    destruct (decide (Employee.role e = Some INTERN)); [reflexivity | contradiction]. }
  split; [exact Hbonus | split; [| apply fadd_zero_r]].
  unfold PayEmployeeCommand.execute, bind, get_employee, lift, on_log, ret.
  cbn [the_employee the_log PayEmployeeCommand.payment_strategy].
  rewrite Hbase, Hbonus.
  destruct base as [| z | b]; cbn [py_format_2f] in Hshown.
  - discriminate Hshown.
  - cbn [py_add py_format_2f]. rewrite Hshown. reflexivity.
  - injection Hshown as ->. reflexivity.
Qed.

Lemma intern_never_gets_bonus_witness :
  Employee.role ian = Some INTERN
  /\ PayEmployeeCommand.execute (PayEmployeeCommand.mk SalariedPayment strict_config)
       3 (mkWorld ian [])
     = (mkWorld ian [LogEntry.mk 3 "PAYMENT" (Some "Ian")
                                 (PFloat (fadd (nearest_float 1000) float_zero))
                                 (Some (BaseBonus (nearest_float 1000) None))],
        Returned (PFloat (fadd (nearest_float 1000) float_zero))).
Proof.
  split; [reflexivity |].
  apply (intern_never_gets_bonus SalariedPayment strict_config 3 ian []
           (PFloat (nearest_float 1000)) (nearest_float 1000));
    reflexivity.
Defined.

(** X4. A salaried employee who is not an intern is paid the salary
    plus the salary times the percentage of the configuration, both
    operations on floats with their rounding; when the configuration
    has no percentage, 0.1 is used. *)
Theorem salaried_total (cfg : gmap string pyval) (now : Z) (e : Employee.t)
  (log : list LogEntry.t) (s : spec_float) :
  Employee.employee_type e = Some SALARIED ->
  Employee.role e <> Some INTERN ->
  Employee.salary e = Some s ->
  (forall pct,
     cfg !! "salaried_bonus_percentage" = Some (PFloat pct) ->
     snd (PayrollService.pay_employee cfg now (mkWorld e log))
     = Returned (PFloat (fadd s (fmul s pct))))
  /\ (cfg !! "salaried_bonus_percentage" = None ->
      snd (PayrollService.pay_employee cfg now (mkWorld e log))
      = Returned (PFloat (fadd s (fmul s float_tenth)))).
Proof.
  intros Hty Hrole Hs.
  assert (Hrun : forall pct,
    config_get cfg "salaried_bonus_percentage" (PFloat float_tenth) = PFloat pct ->
    snd (PayrollService.pay_employee cfg now (mkWorld e log))
    = Returned (PFloat (fadd s (fmul s pct)))).
  { intros pct Hpct. rewrite pay_employee_unfold, Hty.
    change (StrategyFactory.create_payment_strategy (Some SALARIED))
      with (Returned SalariedPayment). cbv beta iota.
    destruct (execute_paid_float SalariedPayment cfg now e log s
                (PFloat (fmul s pct)) (PFloat (fadd s (fmul s pct))))
      as [details Hexec].
    - cbn. rewrite Hs. reflexivity.
    - unfold PayEmployeeCommand._calculate_bonus. cbn [PayEmployeeCommand.config].
      destruct (decide (Employee.role e = Some INTERN)); [contradiction |].
      destruct (decide (Employee.employee_type e = Some SALARIED));
        [| contradiction].
      rewrite Hpct. reflexivity.
    - reflexivity.
    - rewrite Hexec. reflexivity. }
  split.
  - intros pct Hpct. apply Hrun. unfold config_get. rewrite Hpct. reflexivity.
  - intros Hnone. apply Hrun. unfold config_get. rewrite Hnone. reflexivity.
Qed.

Lemma salaried_total_witness :
  snd (PayrollService.pay_employee strict_config 1 (mkWorld carol []))
  = Returned (PFloat (fadd (nearest_float 9000)
                           (fmul (nearest_float 9000) (nearest_float 2)))).
Proof.
  apply (salaried_total strict_config 1 carol [] (nearest_float 9000));
    [reflexivity | discriminate | reflexivity | reflexivity].
Defined.

(** Percentages as Python computes them: with twice the salary as bonus
    Carol is paid 27000.0; with the default 0.1 a salary of 0.7 gives
    0.7699999999999999, the float 6935543426150563 / 2^53, and not the
    float nearest to 0.77. *)
Example salaried_payments :
  snd (PayrollService.pay_employee strict_config 1 (mkWorld carol []))
  = Returned (PFloat (nearest_float 27000))
  /\ fadd (S754_finite false 6305039478318694 (-53))
          (fmul (S754_finite false 6305039478318694 (-53)) float_tenth)
     = S754_finite false 6935543426150563 (-53)
  /\ SFdiv 53 1024 (nearest_float 7) (nearest_float 10)
     = S754_finite false 6305039478318694 (-53)
  /\ SFdiv 53 1024 (nearest_float 77) (nearest_float 100)
     <> S754_finite false 6935543426150563 (-53).
Proof. vm_compute. repeat split; try reflexivity. discriminate. Qed.

(** X5. Paying a freelancer never fails and pays the delivered
    projects and nothing else: whatever the role and the configuration,
    [pay_employee] returns the sum of the delivered amounts plus 0.0, a
    float. *)
Theorem freelancer_paid_delivered_total (cfg : gmap string pyval) (now : Z)
  (e : Employee.t) (log : list LogEntry.t) :
  Employee.employee_type e = Some FREELANCER ->
  snd (PayrollService.pay_employee cfg now (mkWorld e log))
  = py_add (delivered_total (Employee.projects e)) (PFloat float_zero)
  /\ exists total,
       snd (PayrollService.pay_employee cfg now (mkWorld e log))
       = Returned (PFloat total).
Proof.
  intros Hty.
  assert (Hbonus : forall base,
    PayEmployeeCommand._calculate_bonus
      (PayEmployeeCommand.mk FreelancePayment cfg) e base
    = Returned (PFloat float_zero)).
  { intros base. unfold PayEmployeeCommand._calculate_bonus.
    destruct (decide (Employee.role e = Some INTERN)); [reflexivity |].
    destruct (decide (Employee.employee_type e = Some SALARIED)); [congruence |].
    destruct (decide (Employee.employee_type e = Some HOURLY)); [congruence |].
    reflexivity. }
  assert (Hrun :
    snd (PayrollService.pay_employee cfg now (mkWorld e log))
    = py_add (delivered_total (Employee.projects e)) (PFloat float_zero)).
  { rewrite pay_employee_unfold, Hty.
    change (StrategyFactory.create_payment_strategy (Some FREELANCER))
      with (Returned FreelancePayment). cbv beta iota.
    unfold PayEmployeeCommand.execute, bind, get_employee, lift, on_log, ret.
    cbn [the_employee the_log PayEmployeeCommand.payment_strategy].
    rewrite freelance_base, Hbonus.
    destruct (delivered_total_running (Employee.projects e)) as [-> | [t ->]];
      reflexivity. }
  split; [exact Hrun |]. rewrite Hrun.
  destruct (delivered_total_running (Employee.projects e)) as [-> | [t ->]];
    eexists; reflexivity.
Qed.

Lemma freelancer_paid_delivered_total_witness :
  snd (PayrollService.pay_employee strict_config 2 (mkWorld frank []))
  = py_add (PFloat (nearest_float 500)) (PFloat float_zero).
Proof.
  apply (freelancer_paid_delivered_total strict_config 2 frank []). reflexivity.
Defined.

(** ** Configuration *)

Lemma config_get_defaults :
  config_get DEFAULT_CONFIG "salaried_bonus_percentage" (PFloat float_tenth)
  = PFloat float_tenth
  /\ config_get DEFAULT_CONFIG "hourly_bonus_threshold" (PInt 160) = PInt 160
  /\ config_get DEFAULT_CONFIG "hourly_bonus_amount" (PInt 100) = PInt 100.
Proof. repeat split; vm_compute; reflexivity. Qed.

(** X6. The defaults agree: when the configuration file does not exist
    the manager hands out [DEFAULT_CONFIG], and every payment made with
    it is the payment made with an empty configuration, where the
    command falls back on its own constants. *)
Theorem missing_file_pays_as_fallbacks (config_file : string)
  (files : gmap string (gmap string pyval)) (now : Z) (w : World) :
  files !! config_file = None ->
  let manager := ConfigurationManager.init config_file files in
  ConfigurationManager.get_config manager = DEFAULT_CONFIG
  /\ PayrollService.pay_employee (ConfigurationManager.get_config manager) now w
     = PayrollService.pay_employee ∅ now w.
Proof.
  intros Hmissing manager. subst manager.
  assert (Hcfg : ConfigurationManager.get_config
                   (ConfigurationManager.init config_file files) = DEFAULT_CONFIG).
  { unfold ConfigurationManager.get_config, ConfigurationManager.init,
      ConfigurationManager._load_config.
    cbn [ConfigurationManager._config]. rewrite Hmissing. reflexivity. }
  split; [exact Hcfg |]. rewrite Hcfg.
  destruct config_get_defaults as (Hpct & Hthr & Hamt).
  destruct w as [e log]. rewrite !pay_employee_unfold.
  destruct (StrategyFactory.create_payment_strategy (Employee.employee_type e))
    as [strategy | ex]; [| reflexivity].
  unfold PayEmployeeCommand.execute, PayEmployeeCommand._calculate_bonus.
  cbn [PayEmployeeCommand.config PayEmployeeCommand.payment_strategy].
  rewrite Hpct, Hthr, Hamt.
  unfold config_get. rewrite !lookup_empty. reflexivity.
Qed.

Lemma missing_file_pays_as_fallbacks_witness :
  PayrollService.pay_employee
    (ConfigurationManager.get_config
       (ConfigurationManager.init "payroll_config.json" ∅)) 7 (mkWorld alice [])
  = PayrollService.pay_employee ∅ 7 (mkWorld alice []).
Proof.
  apply (missing_file_pays_as_fallbacks "payroll_config.json" ∅ 7 (mkWorld alice [])).
  apply lookup_empty.
Defined.

(** X7. Saving and loading the configuration. [update_config] always
    updates the configuration in memory: the updated value at every
    updated key, the former value at every other key. When the file can
    be written the call ends normally, a manager created afterwards on
    the same file loads exactly that configuration, and no other file
    is touched. When the file cannot be opened for writing the call
    raises, no file has changed, and memory and file are apart: a
    manager created afterwards loads what a manager would have loaded
    before the call. *)
Theorem update_config_persists (self : ConfigurationManager.t)
  (updates : gmap string pyval) (writable : bool)
  (files : gmap string (gmap string pyval)) :
  let '((self', files'), result) :=
    ConfigurationManager.update_config self updates writable files in
  (forall key value, updates !! key = Some value ->
     ConfigurationManager.get_config self' !! key = Some value)
  /\ (forall key, updates !! key = None ->
        ConfigurationManager.get_config self' !! key
        = ConfigurationManager.get_config self !! key)
  /\ ConfigurationManager.config_file self' = ConfigurationManager.config_file self
  /\ (forall other, other <> ConfigurationManager.config_file self ->
        files' !! other = files !! other)
  /\ if writable then
       result = ConfigurationManager.Saved
       /\ ConfigurationManager.get_config
            (ConfigurationManager.init (ConfigurationManager.config_file self) files')
          = ConfigurationManager.get_config self'
     else
       result = ConfigurationManager.OSError
       /\ files' = files
       /\ ConfigurationManager.get_config
            (ConfigurationManager.init (ConfigurationManager.config_file self) files')
          = ConfigurationManager.get_config
              (ConfigurationManager.init (ConfigurationManager.config_file self) files).
Proof.
  unfold ConfigurationManager.update_config, ConfigurationManager.get_config,
    ConfigurationManager.init, ConfigurationManager._load_config.
  destruct writable;
    cbn [ConfigurationManager._config ConfigurationManager.config_file];
    (split; [intros key value Hkey; apply lookup_union_Some_l; exact Hkey |]);
    (split; [intros key Hkey; apply lookup_union_r; exact Hkey |]);
    (split; [reflexivity |]).
  - split; [intros other Hother; apply lookup_insert_ne; congruence |].
    split; [reflexivity |]. rewrite lookup_insert_eq. reflexivity.
  - repeat split.
Qed.
(** ** Vacation policies and the vacation service *)

(** Whether a day count fits an entitlement. *)
Lemma geb_true (a b : Z) : (a >=? b) = true <-> b <= a.
Proof. rewrite Z.geb_le. reflexivity. Qed.

(** X8. In every policy a payout is at least as hard to get as time
    off: whenever [can_payout_vacation] holds, [can_take_vacation]
    holds; and whenever [can_take_vacation] holds, the day count is
    within what [calculate_vacation_days] reports, which for the
    vice president policy is unlimited. *)
Theorem payout_implies_take_within_entitlement (policy : VacationPolicy)
  (e : Employee.t) (days : Z) :
  (can_payout_vacation policy e days = true ->
   can_take_vacation policy e days = true)
  /\ (can_take_vacation policy e days = true ->
      match calculate_vacation_days policy e with
      | Days n => days <= n
      | Unlimited => True
      end).
Proof.
  split; destruct policy;
    cbn [can_payout_vacation can_take_vacation calculate_vacation_days];
    rewrite ?andb_true_iff, ?geb_true, ?Z.leb_le; intros H;
    try discriminate H; try exact I; lia.
Qed.

Lemma payout_implies_take_within_entitlement_witness :
  can_take_vacation ManagerVacation bob 10 = true.
Proof.
  apply (payout_implies_take_within_entitlement ManagerVacation bob 10).
  reflexivity.
Defined.

(** X9. The caps of the vacation service: a payout that is granted is
    of at most 10 days, of at most 5 days unless the employee is a
    manager, and, unless the employee is a vice president, of no more
    days than the balance. *)
Theorem granted_payout_caps (w : World) (days : Z) (now : Z) :
  snd (VacationService.grant_vacation days true now w) = Returned tt ->
  days <= 10
  /\ (Employee.role (the_employee w) <> Some MANAGER -> days <= 5)
  /\ (Employee.role (the_employee w) <> Some VICE_PRESIDENT ->
      days <= Employee.vacation_days (the_employee w)).
Proof.
  rewrite grant_vacation_unfold, vacation_command_unfold.
  destruct (selected_check _ _ days true) eqn:Hchk; [| discriminate].
  intros _. revert Hchk.
  unfold StrategyFactory.create_vacation_policy, selected_check.
  destruct (decide (Employee.role (the_employee w) = Some INTERN));
    [discriminate |].
  destruct (decide (Employee.role (the_employee w) = Some MANAGER));
    [| destruct (decide (Employee.role (the_employee w) = Some VICE_PRESIDENT));
       [| destruct (decide (Employee.employee_type (the_employee w) = Some HOURLY))]];
    cbn [can_payout_vacation];
    rewrite ?andb_true_iff, ?geb_true, ?Z.leb_le; intros H;
    repeat split; intros; try contradiction; lia.
Qed.

Lemma granted_payout_caps_witness :
  snd (VacationService.grant_vacation 10 true 1 (mkWorld bob [])) = Returned tt
  /\ 10 <= Employee.vacation_days (the_employee (mkWorld bob [])).
Proof.
  split; [reflexivity |].
  apply (granted_payout_caps (mkWorld bob []) 10 1); [reflexivity | discriminate].
Defined.

(** X10. The vacation service never grants anything to an intern:
    whatever the day count, for time off and for a payout alike, the
    request raises the refusal and the employee and the log are as they
    were. *)
Theorem intern_never_granted (w : World) (days : Z) (payout : bool) (now : Z) :
  Employee.role (the_employee w) = Some INTERN ->
  VacationService.grant_vacation days payout now w
  = (w, Raised (vacation_refusal (the_employee w) days payout)).
Proof.
  intros Hrole. rewrite grant_vacation_unfold.
  apply execute_refused.
  unfold StrategyFactory.create_vacation_policy. rewrite Hrole.
  destruct (decide (Some INTERN = Some INTERN)) as [_ | H]; [| contradiction].
  destruct payout; reflexivity.
Qed.

Lemma intern_never_granted_witness :
  VacationService.grant_vacation 1 false 5 (mkWorld ian [])
  = (mkWorld ian [], Raised (ValueError (CannotTake 1 "Ian"))).
Proof.
  apply (intern_never_granted (mkWorld ian []) 1 false 5). reflexivity.
Defined.

(** X11. For a vice president the vacation service looks at the day
    count only: a request, for time off or for a payout, is granted
    exactly when it is for at most 5 days, whatever the balance, and a
    granted request appends its entry and leaves the employee as it
    was. *)
Theorem vice_president_five_day_rule (w : World) (days : Z) (payout : bool)
  (now : Z) :
  Employee.role (the_employee w) = Some VICE_PRESIDENT ->
  let result := VacationService.grant_vacation days payout now w in
  (snd result = Returned tt <-> days <= 5)
  /\ (days <= 5 ->
      fst result
      = mkWorld (the_employee w)
                (the_log w ++ [vacation_entry (the_employee w) days payout now])).
Proof.
  intros Hrole result. subst result.
  rewrite grant_vacation_unfold, vacation_command_unfold.
  assert (Hchk : selected_check
            (StrategyFactory.create_vacation_policy
               (Employee.role (the_employee w))
               (Employee.employee_type (the_employee w)))
            (the_employee w) days payout = (days <=? 5)).
  { unfold StrategyFactory.create_vacation_policy. rewrite Hrole.
    destruct (decide (Some VICE_PRESIDENT = Some INTERN)) as [H | _];
      [discriminate H |].
    destruct (decide (Some VICE_PRESIDENT = Some MANAGER)) as [H | _];
      [discriminate H |].
    destruct (decide (Some VICE_PRESIDENT = Some VICE_PRESIDENT)) as [_ | H];
      [| contradiction].
    destruct payout; reflexivity. }
  rewrite Hchk.
  destruct (days <=? 5) eqn:Hle; cbn [fst snd].
  - apply Z.leb_le in Hle. split; [split; [intros _; exact Hle | reflexivity] |].
    intros _. unfold balance_after.
    destruct (decide (Employee.role (the_employee w) = Some VICE_PRESIDENT));
      [| contradiction].
    rewrite set_vacation_days_same. reflexivity.
  - apply Z.leb_gt in Hle. split; [split; [discriminate | lia] | lia].
Qed.

Lemma vice_president_five_day_rule_witness :
  snd (VacationService.grant_vacation 5 true 2 (mkWorld carol [])) = Returned tt.
Proof.
  apply (vice_president_five_day_rule (mkWorld carol []) 5 true 2);
    [reflexivity | lia].
Defined.

(** ** Sequences of vacation requests *)

Lemma set_vacation_days_twice (e : Employee.t) (a b : Z) :
  Employee.set_vacation_days (Employee.set_vacation_days e a) b
  = Employee.set_vacation_days e b.
Proof. reflexivity. Qed.

(** One request through the service: the log gains the entries [new],
    none or one, and the balance drops by the days they record. *)
Lemma grant_vacation_step (w : World) (days : Z) (payout : bool) (now : Z) :
  exists new,
    (new = [] \/ new = [vacation_entry (the_employee w) days payout now])
    /\ fst (VacationService.grant_vacation days payout now w)
       = mkWorld (Employee.set_vacation_days (the_employee w)
                    (if decide (Employee.role (the_employee w) = Some VICE_PRESIDENT)
                     then Employee.vacation_days (the_employee w)
                     else Employee.vacation_days (the_employee w) - total_days new))
                 (the_log w ++ new).
Proof.
  rewrite grant_vacation_unfold, vacation_command_unfold.
  destruct (selected_check _ _ days payout).
  - exists [vacation_entry (the_employee w) days payout now].
    split; [right; reflexivity |]. cbn [fst]. unfold balance_after.
    replace (total_days [vacation_entry (the_employee w) days payout now])
      with days; [reflexivity |].
    unfold total_days, entry_days, vacation_entry. cbn.
    destruct payout; lia.
  - exists []. split; [left; reflexivity |]. cbn [fst].
    unfold total_days. cbn [map fold_right].
    rewrite Z.sub_0_r, app_nil_r.
    destruct (decide _); rewrite set_vacation_days_same; symmetry; apply world_eta.
Qed.

Lemma total_days_app (a b : list LogEntry.t) :
  total_days (a ++ b) = total_days a + total_days b.
Proof.
  unfold total_days. induction a as [| x a IH]; cbn [app map fold_right].
  - reflexivity.
  - rewrite IH. lia.
Qed.

(** The entries a sequence of requests appends, and the employee it
    leaves. *)
Lemma grant_each_trace (requests : list request) (w : World) :
  exists new,
    the_log (grant_each requests w) = (the_log w ++ new)%list
    /\ (length new <= length requests)%nat
    /\ Forall (fun op =>
                 LogEntry.employee_name op = Some (Employee.name (the_employee w))
                 /\ LogEntry.amount op = PInt (entry_days op)) new
    /\ the_employee (grant_each requests w)
       = Employee.set_vacation_days (the_employee w)
           (if decide (Employee.role (the_employee w) = Some VICE_PRESIDENT)
            then Employee.vacation_days (the_employee w)
            else Employee.vacation_days (the_employee w) - total_days new).
Proof.
  revert w. induction requests as [| [[days payout] now] rest IH]; intros w.
  - exists []. cbn [grant_each length]. rewrite app_nil_r.
    repeat split; [lia | constructor |].
    unfold total_days. cbn [map fold_right]. rewrite Z.sub_0_r.
    destruct (decide _); rewrite set_vacation_days_same; reflexivity.
  - cbn [grant_each].
    destruct (grant_vacation_step w days payout now) as (new1 & Hnew1 & Hstep).
    destruct (IH (fst (VacationService.grant_vacation days payout now w)))
      as (new2 & Hlog & Hlen & Hall & Hemp).
    rewrite Hstep in Hlog, Hall, Hemp. cbn [the_log the_employee] in Hlog, Hall, Hemp.
    rewrite Hstep.
    exists (new1 ++ new2)%list. split; [| split; [| split]].
    + rewrite Hlog, app_assoc. reflexivity.
    + rewrite length_app. cbn [length].
      destruct Hnew1 as [-> | ->]; cbn [length]; lia.
    + apply Forall_app. split.
      * destruct Hnew1 as [-> | ->]; [constructor |].
        constructor; [| constructor].
        split; [reflexivity |]. destruct payout; reflexivity.
      * exact Hall.
    + rewrite Hemp. cbn [Employee.role Employee.set_vacation_days
                         Employee.vacation_days].
      rewrite total_days_app.
      destruct (decide (Employee.role (the_employee w) = Some VICE_PRESIDENT));
        [reflexivity |].
      f_equal. lia.
Qed.

(** X12. The log accounts for the balance. After any sequence of
    requests made through the vacation service, granted or refused, the
    log has gained at most one entry per request, each under the
    employee's name with the day count as amount, and the balance has
    dropped by exactly the sum of those day counts; for a vice
    president the balance has not moved. Nothing else of the employee
    has changed. *)
Theorem balance_matches_logged_days (requests : list request) (w : World) :
  exists new,
    the_log (grant_each requests w) = (the_log w ++ new)%list
    /\ (length new <= length requests)%nat
    /\ Forall (fun op =>
                 LogEntry.employee_name op = Some (Employee.name (the_employee w))
                 /\ LogEntry.amount op = PInt (entry_days op)) new
    /\ the_employee (grant_each requests w)
       = Employee.set_vacation_days (the_employee w)
           (Employee.vacation_days (the_employee (grant_each requests w)))
    /\ Employee.vacation_days (the_employee (grant_each requests w))
       = if decide (Employee.role (the_employee w) = Some VICE_PRESIDENT)
         then Employee.vacation_days (the_employee w)
         else Employee.vacation_days (the_employee w) - total_days new.
Proof.
  destruct (grant_each_trace requests w) as (new & Hlog & Hlen & Hall & Hemp).
  exists new. repeat split; try assumption; rewrite Hemp; reflexivity.
Qed.

(** X13. Requests made through the vacation service never drive the
    balance below zero: a balance that is not negative is still not
    negative after any sequence of requests, whatever their day counts,
    negative ones included. *)
Theorem balance_stays_nonneg (requests : list request) (w : World) :
  0 <= Employee.vacation_days (the_employee w) ->
  0 <= Employee.vacation_days (the_employee (grant_each requests w)).
Proof.
  revert w. induction requests as [| [[days payout] now] rest IH]; intros w Hbal.
  - exact Hbal.
  - cbn [grant_each]. apply IH.
    apply grant_vacation_keeps_balance_nonneg. exact Hbal.
Qed.

Lemma balance_stays_nonneg_witness :
  0 <= Employee.vacation_days
         (the_employee (grant_each [(10, true, 1); (3, true, 2); (-4, false, 3)]
                                   (mkWorld bob []))).
Proof.
  apply (balance_stays_nonneg [(10, true, 1); (3, true, 2); (-4, false, 3)]
                              (mkWorld bob [])).
  vm_compute. discriminate.
Defined.

(** ** The log under the commands *)

Lemma grant_vacation_log (w : World) (days : Z) (payout : bool) (now : Z) :
  the_log (fst (VacationService.grant_vacation days payout now w))
  = (the_log w
     ++ (if selected_check
              (StrategyFactory.create_vacation_policy
                 (Employee.role (the_employee w))
                 (Employee.employee_type (the_employee w)))
              (the_employee w) days payout
         then [vacation_entry (the_employee w) days payout now] else []))%list.
Proof.
  rewrite grant_vacation_unfold, vacation_command_unfold.
  destruct (selected_check _ _ days payout); cbn [fst the_log];
    [reflexivity | rewrite app_nil_r; reflexivity].
Qed.

Lemma grant_vacation_name (w : World) (days : Z) (payout : bool) (now : Z) :
  Employee.name (the_employee (fst (VacationService.grant_vacation days payout now w)))
  = Employee.name (the_employee w).
Proof.
  rewrite grant_vacation_unfold, vacation_command_unfold.
  destruct (selected_check _ _ days payout); reflexivity.
Qed.

(** X14. The log is append-only under the commands. Paying an employee
    and granting vacation leave the former log as a prefix of the new
    one; adding a project and reading an employee's history leave the
    log as it was. *)
Theorem commands_only_append (cfg : gmap string pyval) (now : Z) (days : Z)
  (payout : bool) (project_name : string) (amount : spec_float) (w : World) :
  the_log w `prefix_of` the_log (fst (PayrollService.pay_employee cfg now w))
  /\ the_log w `prefix_of`
       the_log (fst (VacationService.grant_vacation days payout now w))
  /\ the_log (fst (Company.add_project_to_freelancer project_name amount w))
     = the_log w
  /\ Company.get_employee_history w
     = (w, Returned (OperationLog.get_operations
                       (Some (Employee.name (the_employee w))) (the_log w))).
Proof.
  split; [| split; [| split]].
  - destruct w as [e log].
    destruct (pay_employee_cases cfg now e log)
      as [(total' & details & Hrun) | [ex Hrun]]; rewrite Hrun; cbn [fst the_log].
    + apply prefix_app_r. reflexivity.
    + reflexivity.
  - rewrite grant_vacation_log. apply prefix_app_r. reflexivity.
  - unfold Company.add_project_to_freelancer, bind, get_employee, raise,
      put_employee.
    destruct (decide _); reflexivity.
  - reflexivity.
Qed.

Lemma truthy_name (n : string) : n <> "" -> truthy (Some n) = true.
Proof.
  intros Hn. unfold truthy. apply String.eqb_neq in Hn. rewrite Hn. reflexivity.
Qed.

Lemma get_operations_app (n : string) (log more : list LogEntry.t) :
  OperationLog.get_operations (Some n) (log ++ more)
  = (OperationLog.get_operations (Some n) log
     ++ OperationLog.get_operations (Some n) more)%list.
Proof.
  unfold OperationLog.get_operations.
  destruct (truthy (Some n)); [apply List.filter_app | reflexivity].
Qed.

(** X15. The history of an employee whose name is not empty follows the
    requests: after a request through the vacation service the history
    is the former history followed by the entry of the request when it
    was granted, and the former history when it was refused; after a
    payment that returned, it is the former history followed by one
    PAYMENT entry with the returned total. *)
Theorem history_follows_commands (w : World) (days : Z) (payout : bool)
  (now : Z) (cfg : gmap string pyval) :
  Employee.name (the_employee w) <> "" ->
  let history w := snd (Company.get_employee_history w) in
  forall former,
    history w = Returned former ->
    history (fst (VacationService.grant_vacation days payout now w))
    = Returned
        (former
         ++ (if selected_check
                  (StrategyFactory.create_vacation_policy
                     (Employee.role (the_employee w))
                     (Employee.employee_type (the_employee w)))
                  (the_employee w) days payout
             then [vacation_entry (the_employee w) days payout now] else []))%list
    /\ forall total,
         snd (PayrollService.pay_employee cfg now w) = Returned total ->
         exists entry,
           history (fst (PayrollService.pay_employee cfg now w))
           = Returned (former ++ [entry])%list
           /\ LogEntry.operation entry = "PAYMENT"
           /\ LogEntry.amount entry = total.
Proof.
  intros Hname history former Hformer. subst history.
  cbn [snd Company.get_employee_history] in *.
  unfold Company.get_employee_history, bind, get_employee, get_log, ret in *.
  cbn [snd] in *. injection Hformer as Hformer.
  split.
  - rewrite grant_vacation_name, grant_vacation_log.
    f_equal. rewrite get_operations_app, Hformer. f_equal.
    unfold OperationLog.get_operations. rewrite (truthy_name _ Hname).
    destruct (selected_check _ _ days payout); [| reflexivity].
    cbn [List.filter vacation_entry LogEntry.employee_name].
    rewrite bool_decide_eq_true_2; reflexivity.
  - intros total Hret. destruct w as [e log]. cbn [the_employee the_log] in *.
    destruct (pay_employee_cases cfg now e log)
      as [(total' & details & Hrun) | [ex Hrun]]; rewrite Hrun in *;
      cbn [fst snd the_employee the_log] in *; [| discriminate Hret].
    injection Hret as <-.
    exists (payment_entry e total' details now). repeat split.
    f_equal. rewrite get_operations_app, Hformer. f_equal.
    unfold OperationLog.get_operations. rewrite (truthy_name _ Hname).
    cbn [List.filter payment_entry LogEntry.employee_name].
    rewrite bool_decide_eq_true_2; reflexivity.
Qed.

Lemma history_follows_commands_witness :
  snd (Company.get_employee_history
         (fst (VacationService.grant_vacation 10 true 1 (mkWorld bob []))))
  = Returned [vacation_entry bob 10 true 1].
Proof.
  assert (Hname : Employee.name (the_employee (mkWorld bob [])) <> "")
    by discriminate.
  destruct (history_follows_commands (mkWorld bob []) 10 true 1 ∅ Hname []
              eq_refl) as [Hgrant _].
  exact Hgrant.
Defined.

(** X16. Queries on any log. Without a name the query gives the whole
    log. With a name that is not empty it gives exactly the entries
    recorded under that name, in the order of the log; asking again on
    the result changes nothing; and recording under another name does
    not change the answer. After [clear_log] every query is empty. *)
Theorem query_by_name (n : string) (log : list LogEntry.t) :
  n <> "" ->
  let result := OperationLog.get_operations (Some n) log in
  OperationLog.get_operations None log = log
  /\ (forall op, In op result <-> In op log /\ LogEntry.employee_name op = Some n)
  /\ sublist result log
  /\ OperationLog.get_operations (Some n) result = result
  /\ (forall operation other amount details now,
        other <> Some n ->
        OperationLog.get_operations (Some n)
          (OperationLog.record operation other amount details now log)
        = result)
  /\ (forall who, OperationLog.get_operations who (OperationLog.clear_log log) = []).
Proof.
  intros Hn result. subst result.
  assert (Hfilter : forall l,
    OperationLog.get_operations (Some n) l
    = List.filter (fun op => bool_decide (LogEntry.employee_name op = Some n)) l).
  { intros l. unfold OperationLog.get_operations.
    rewrite (truthy_name _ Hn). reflexivity. }
  split; [reflexivity |]. split; [| split; [| split; [| split]]].
  - intros op. rewrite Hfilter, List.filter_In, bool_decide_eq_true. reflexivity.
  - rewrite Hfilter. apply bool_filter_sublist.
  - rewrite !Hfilter.
    induction log as [| op log IH]; cbn [List.filter]; [reflexivity |].
    destruct (bool_decide (LogEntry.employee_name op = Some n)) eqn:Hop;
      cbn [List.filter]; [rewrite Hop, IH; reflexivity | exact IH].
  - intros operation other amount details now Hother.
    unfold OperationLog.record. rewrite get_operations_app.
    rewrite (Hfilter [_]). cbn [List.filter LogEntry.employee_name].
    rewrite bool_decide_eq_false_2 by exact Hother. apply app_nil_r.
  - intros who. unfold OperationLog.get_operations, OperationLog.clear_log.
    destruct (truthy who); reflexivity.
Qed.

Lemma query_by_name_witness :
  OperationLog.get_operations (Some "Bob") [bob_entry; nameless_entry] = [bob_entry]
  /\ sublist (OperationLog.get_operations (Some "Bob") [bob_entry; nameless_entry])
             [bob_entry; nameless_entry].
Proof.
  split; [reflexivity |].
  apply (query_by_name "Bob" [bob_entry; nameless_entry]). discriminate.
Defined.

(** ** Employee factory *)

Lemma enum_values_round_trip_aux (rv tv : string) (role : Role) (ty : EmployeeType) :
  EmployeeFactory.Role_of rv = EmployeeFactory.Built role ->
  EmployeeFactory.EmployeeType_of tv = EmployeeFactory.Built ty ->
  rv = Role_value role /\ tv = EmployeeType_value ty.
Proof.
  unfold EmployeeFactory.Role_of, EmployeeFactory.EmployeeType_of.
  intros Hr Ht. split.
  - revert Hr.
    repeat (match goal with
            | |- context [String.eqb rv ?s] =>
                destruct (String.eqb_spec rv s) as [-> | ?]
            end); intros H; inversion H; reflexivity.
  - revert Ht.
    repeat (match goal with
            | |- context [String.eqb tv ?s] =>
                destruct (String.eqb_spec tv s) as [-> | ?]
            end); intros H; inversion H; reflexivity.
Qed.

Lemma Role_of_failed (rv : string) (err : EmployeeFactory.error) :
  EmployeeFactory.Role_of rv = EmployeeFactory.Failed err ->
  err = EmployeeFactory.NotAValue "Role" rv.
Proof.
  unfold EmployeeFactory.Role_of.
  repeat (match goal with
          | |- context [String.eqb rv ?s] => destruct (String.eqb rv s)
          end); intros H; inversion H; reflexivity.
Qed.

Lemma EmployeeType_of_failed (tv : string) (err : EmployeeFactory.error) :
  EmployeeFactory.EmployeeType_of tv = EmployeeFactory.Failed err ->
  err = EmployeeFactory.NotAValue "EmployeeType" tv.
Proof.
  unfold EmployeeFactory.EmployeeType_of.
  repeat (match goal with
          | |- context [String.eqb tv ?s] => destruct (String.eqb tv s)
          end); intros H; inversion H; reflexivity.
Qed.

Lemma create_employee_built (d : EmployeeFactory.data) (e : Employee.t) :
  EmployeeFactory.create_employee d = EmployeeFactory.Built e ->
  exists name role_value role type_value ty,
    EmployeeFactory.d_name d = Some name
    /\ EmployeeFactory.d_role d = Some role_value
    /\ EmployeeFactory.Role_of role_value = EmployeeFactory.Built role
    /\ EmployeeFactory.d_type d = Some type_value
    /\ EmployeeFactory.EmployeeType_of type_value = EmployeeFactory.Built ty
    /\ match ty with
       | SALARIED =>
           exists salary,
             EmployeeFactory.d_salary d = Some salary
             /\ e = Employee.mk name (Some role) (Some SALARIED) 25
                                salary None None []
       | HOURLY =>
           exists hourly_rate hours_worked,
             EmployeeFactory.d_hourly_rate d = Some hourly_rate
             /\ EmployeeFactory.d_hours_worked d = Some hours_worked
             /\ e = Employee.mk name (Some role) (Some HOURLY) 25
                                None hourly_rate hours_worked []
       | FREELANCER =>
           e = Employee.mk name (Some role) (Some FREELANCER) 25 None None None []
       end.
Proof.
  unfold EmployeeFactory.create_employee.
  destruct (EmployeeFactory.d_name d) as [name |]; [| discriminate].
  destruct (EmployeeFactory.d_role d) as [role_value |]; [| discriminate].
  cbn [EmployeeFactory.item EmployeeFactory.andThen].
  destruct (EmployeeFactory.Role_of role_value) as [role | err] eqn:Hrole;
    [| discriminate].
  destruct (EmployeeFactory.d_type d) as [type_value |]; [| discriminate].
  cbn [EmployeeFactory.item EmployeeFactory.andThen].
  destruct (EmployeeFactory.EmployeeType_of type_value) as [ty | err] eqn:Hty;
    [| discriminate].
  cbn [EmployeeFactory.andThen].
  intros Hbuilt.
  exists name, role_value, role, type_value, ty.
  repeat (split; [reflexivity || assumption |]).
  destruct ty.
  - destruct (EmployeeFactory.d_salary d) as [salary |]; [| discriminate].
    injection Hbuilt as <-. eauto.
  - destruct (EmployeeFactory.d_hourly_rate d) as [rate |]; [| discriminate].
    destruct (EmployeeFactory.d_hours_worked d) as [hours |]; [| discriminate].
    injection Hbuilt as <-. eauto 6.
  - injection Hbuilt as <-. reflexivity.
Qed.

(** X18. What the factory builds. Every employee it returns has the
    given name, a role and a compensation type that are members of
    their enumerations, 25 vacation days and no project. The fields of
    the compensation type hold the values found under the keys of that
    type, as they are: a key that holds [None] gives an employee whose
    field is unset. The other fields are unset, whatever else the
    dictionary holds. *)
Theorem created_employee_shape (d : EmployeeFactory.data) (e : Employee.t) :
  EmployeeFactory.create_employee d = EmployeeFactory.Built e ->
  EmployeeFactory.d_name d = Some (Employee.name e)
  /\ Employee.vacation_days e = 25
  /\ Employee.projects e = []
  /\ (exists role, Employee.role e = Some role
                   /\ EmployeeFactory.d_role d = Some (Role_value role))
  /\ (exists ty, Employee.employee_type e = Some ty
                 /\ EmployeeFactory.d_type d = Some (EmployeeType_value ty))
  /\ match Employee.employee_type e with
     | Some SALARIED =>
         EmployeeFactory.d_salary d = Some (Employee.salary e)
         /\ Employee.hourly_rate e = None /\ Employee.hours_worked e = None
     | Some HOURLY =>
         Employee.salary e = None
         /\ EmployeeFactory.d_hourly_rate d = Some (Employee.hourly_rate e)
         /\ EmployeeFactory.d_hours_worked d = Some (Employee.hours_worked e)
     | _ =>
         Employee.salary e = None
         /\ Employee.hourly_rate e = None /\ Employee.hours_worked e = None
     end.
Proof.
  intros Hbuilt.
  destruct (create_employee_built d e Hbuilt)
    as (name & rv & role & tv & ty & Hname & Hrv & Hrole & Htv & Hty & Hshape).
  destruct (enum_values_round_trip_aux rv tv role ty Hrole Hty) as [-> ->].
  destruct ty.
  - destruct Hshape as (salary & Hsalary & ->). cbn.
    repeat split; eauto.
  - destruct Hshape as (rate & hours & Hrate & Hhours & ->). cbn.
    repeat split; eauto.
  - subst e. cbn. repeat split; eauto.
Qed.

Lemma created_employee_shape_witness :
  EmployeeFactory.create_employee nora_data = EmployeeFactory.Built nora
  /\ EmployeeFactory.d_salary nora_data = Some (Employee.salary nora)
  /\ Employee.salary nora = None.
Proof.
  split; [reflexivity |].
  split; [| reflexivity].
  apply (created_employee_shape nora_data nora). reflexivity.
Defined.

(** The arithmetic of the pay command raises [TypeError] or
    [OverflowError] and nothing else. *)
Lemma py_add_errors (x y : pyval) (ex : exn) :
  py_add x y = Raised ex -> ex = TypeError \/ ex = OverflowError.
Proof.
  destruct x as [| a | a], y as [| b | b]; cbn [py_add];
    try (intros H; inversion H; auto; fail);
    match goal with
    | |- context [float_of_int ?z] =>
        destruct (float_of_int z) as [? | ex'] eqn:Hconv; cbn [obind];
          intros H; inversion H; subst;
          apply float_of_int_raises in Hconv; auto
    end.
Qed.

Lemma py_mul_errors (x y : pyval) (ex : exn) :
  py_mul x y = Raised ex -> ex = TypeError \/ ex = OverflowError.
Proof.
  destruct x as [| a | a], y as [| b | b]; cbn [py_mul];
    try (intros H; inversion H; auto; fail);
    match goal with
    | |- context [float_of_int ?z] =>
        destruct (float_of_int z) as [? | ex'] eqn:Hconv; cbn [obind];
          intros H; inversion H; subst;
          apply float_of_int_raises in Hconv; auto
    end.
Qed.

Lemma py_format_2f_errors (v : pyval) (ex : exn) :
  py_format_2f v = Raised ex -> ex = TypeError \/ ex = OverflowError.
Proof.
  destruct v as [| z | f]; cbn [py_format_2f]; intros H;
    [inversion H; auto | apply float_of_int_raises in H; auto | discriminate H].
Qed.

Lemma calculate_payment_errors strategy e (ex : exn) :
  calculate_payment strategy e = Raised ex -> ex = TypeError \/ ex = OverflowError.
Proof.
  destruct strategy.
  - cbn. destruct (Employee.salary e); intros H; discriminate H.
  - cbn. apply py_mul_errors.
  - rewrite freelance_base. intros H; discriminate H.
Qed.

Lemma bonus_errors strategy cfg e base (ex : exn) :
  PayEmployeeCommand._calculate_bonus (PayEmployeeCommand.mk strategy cfg) e base
  = Raised ex ->
  ex = TypeError \/ ex = OverflowError.
Proof.
  unfold PayEmployeeCommand._calculate_bonus. cbn [PayEmployeeCommand.config].
  destruct (decide (Employee.role e = Some INTERN)); [intros H; discriminate H |].
  destruct (decide (Employee.employee_type e = Some SALARIED));
    [apply py_mul_errors |].
  destruct (decide (Employee.employee_type e = Some HOURLY));
    [| intros H; discriminate H].
  destruct (py_gt _ _) as [above | ex'] eqn:Hgt; cbn [obind]; intros H;
    [discriminate H |].
  inversion H; subst. left. eapply py_gt_raises. exact Hgt.
Qed.

Lemma execute_errors strategy cfg now e log (ex : exn) :
  snd (PayEmployeeCommand.execute (PayEmployeeCommand.mk strategy cfg) now
                                  (mkWorld e log)) = Raised ex ->
  ex = TypeError \/ ex = OverflowError.
Proof.
  unfold PayEmployeeCommand.execute, bind, get_employee, lift, on_log, ret.
  cbn [the_employee the_log PayEmployeeCommand.payment_strategy].
  destruct (calculate_payment strategy e) as [base | ex1] eqn:Hbase;
    [| cbn [snd]; intros H; inversion H; subst;
       eapply calculate_payment_errors; exact Hbase].
  destruct (PayEmployeeCommand._calculate_bonus _ e base) as [bonus | ex1] eqn:Hbonus;
    [| cbn [snd]; intros H; inversion H; subst; eapply bonus_errors; exact Hbonus].
  destruct (py_add base bonus) as [total | ex1] eqn:Hadd;
    [| cbn [snd]; intros H; inversion H; subst; eapply py_add_errors; exact Hadd].
  destruct (py_format_2f base) as [shown | ex1] eqn:Hshown;
    [| cbn [snd]; intros H; inversion H; subst;
       eapply py_format_2f_errors; exact Hshown].
  destruct (py_gt bonus (PInt 0)) as [[|] | ex1] eqn:Hgt;
    [| cbn [snd]; intros H; discriminate H
     | cbn [snd]; intros H; inversion H; subst; left; eapply py_gt_raises; exact Hgt].
  destruct (py_format_2f bonus) as [bshown | ex1] eqn:Hbshown;
    cbn [snd]; intros H; [discriminate H |].
  inversion H; subst. eapply py_format_2f_errors. exact Hbshown.
Qed.

(** X19. Employees built by the factory stay inside the rules. The
    vacation policy selected for one is the intern, manager or vice
    president policy, never the hourly or the basic one, because its
    role is always a member of the enumeration. Paying one never raises
    [ValueError], because its type is a member too; and under a
    configuration that holds numbers it raises [TypeError] exactly when
    a key of its type held [None] in the dictionary. *)
Theorem created_employee_in_rules (d : EmployeeFactory.data) (e : Employee.t)
  (cfg : gmap string pyval) (now : Z) (log : list LogEntry.t) :
  EmployeeFactory.create_employee d = EmployeeFactory.Built e ->
  (let policy := StrategyFactory.create_vacation_policy
                   (Employee.role e) (Employee.employee_type e) in
   policy <> HourlyVacation /\ policy <> BasicVacation)
  /\ (forall message,
        snd (PayrollService.pay_employee cfg now (mkWorld e log))
        <> Raised (ValueError message))
  /\ ((forall key, cfg !! key <> Some PNone) ->
      (snd (PayrollService.pay_employee cfg now (mkWorld e log)) = Raised TypeError
       <-> match Employee.employee_type e with
           | Some SALARIED => EmployeeFactory.d_salary d = Some None
           | Some HOURLY => EmployeeFactory.d_hourly_rate d = Some None
                            \/ EmployeeFactory.d_hours_worked d = Some None
           | _ => False
           end)).
Proof.
  intros Hbuilt.
  destruct (create_employee_built d e Hbuilt)
    as (name & rv & role & tv & ty & _ & _ & _ & _ & _ & Hshape).
  assert (Hrole : Employee.role e = Some role).
  { destruct ty; [destruct Hshape as (? & _ & ->)
                 | destruct Hshape as (? & ? & _ & _ & ->) | subst e];
      reflexivity. }
  assert (Hty : Employee.employee_type e = Some ty).
  { destruct ty; [destruct Hshape as (? & _ & ->)
                 | destruct Hshape as (? & ? & _ & _ & ->) | subst e];
      reflexivity. }
  split; [| split].
  - cbv zeta. rewrite Hrole. destruct role; vm_compute; split; discriminate.
  - intros message Hraised.
    rewrite pay_employee_unfold, Hty in Hraised.
    assert (Hsel : StrategyFactory.create_payment_strategy (Some ty)
                   = Returned match ty with
                              | SALARIED => SalariedPayment
                              | HOURLY => HourlyPayment
                              | FREELANCER => FreelancePayment
                              end) by (destruct ty; reflexivity).
    rewrite Hsel in Hraised.
    apply execute_errors in Hraised. destruct Hraised; discriminate.
  - intros Hcfg.
    assert (Hunset : required_field_unset e = true
                     <-> match Employee.employee_type e with
                         | Some SALARIED => EmployeeFactory.d_salary d = Some None
                         | Some HOURLY =>
                             EmployeeFactory.d_hourly_rate d = Some None
                             \/ EmployeeFactory.d_hours_worked d = Some None
                         | _ => False
                         end).
    { unfold required_field_unset. rewrite Hty. destruct ty.
      - destruct Hshape as (salary & Hsalary & ->). cbn [Employee.salary].
        rewrite Hsalary, bool_decide_eq_true. split; congruence.
      - destruct Hshape as (rate & hours & Hrate & Hhours & ->).
        cbn [Employee.hourly_rate Employee.hours_worked].
        rewrite Hrate, Hhours, orb_true_iff, !bool_decide_eq_true.
        split; intros [H | H]; (left; congruence) || (right; congruence).
      - split; [discriminate | contradiction]. }
    rewrite <- Hunset. split.
    + intros Hraised.
      destruct (required_field_unset e) eqn:Hreq; [reflexivity |].
      destruct (pay_employee_well_formed cfg now e log) as [(t & dt & Hrun) | Hrun];
        [rewrite Hty; discriminate | exact Hreq | exact Hcfg | |];
        rewrite Hrun in Hraised; discriminate Hraised.
    + intros Hreq. rewrite (pay_employee_unset cfg now e log Hreq). reflexivity.
Qed.

Lemma created_employee_in_rules_witness :
  StrategyFactory.create_vacation_policy (Employee.role gina)
                                         (Employee.employee_type gina)
  <> HourlyVacation.
Proof.
  apply (created_employee_in_rules gina_data gina ∅ 0 []). reflexivity.
Defined.

(** A salary key that holds [None] is accepted by the factory, and the
    employee it builds cannot be paid. *)
Example none_salary_accepted :
  EmployeeFactory.create_employee nora_data = EmployeeFactory.Built nora
  /\ PayrollService.pay_employee ∅ 0 (mkWorld nora [])
     = (mkWorld nora [], Raised TypeError).
Proof. split; reflexivity. Qed.

(** The failures of the factory, in the order it reads the dictionary. *)
Lemma create_employee_failures (d : EmployeeFactory.data) :
  match EmployeeFactory.d_name d, EmployeeFactory.d_role d with
  | None, _ =>
      EmployeeFactory.create_employee d
      = EmployeeFactory.Failed (EmployeeFactory.KeyError "name")
  | Some _, None =>
      EmployeeFactory.create_employee d
      = EmployeeFactory.Failed (EmployeeFactory.KeyError "role")
  | Some name, Some role_value =>
      match EmployeeFactory.Role_of role_value, EmployeeFactory.d_type d with
      | EmployeeFactory.Failed _, _ =>
          EmployeeFactory.create_employee d
          = EmployeeFactory.Failed (EmployeeFactory.NotAValue "Role" role_value)
      | EmployeeFactory.Built _, None =>
          EmployeeFactory.create_employee d
          = EmployeeFactory.Failed (EmployeeFactory.KeyError "type")
      | EmployeeFactory.Built role, Some type_value =>
          match EmployeeFactory.EmployeeType_of type_value with
          | EmployeeFactory.Failed _ =>
              EmployeeFactory.create_employee d
              = EmployeeFactory.Failed
                  (EmployeeFactory.NotAValue "EmployeeType" type_value)
          | EmployeeFactory.Built SALARIED =>
              EmployeeFactory.d_salary d = None ->
              EmployeeFactory.create_employee d
              = EmployeeFactory.Failed (EmployeeFactory.KeyError "salary")
          | EmployeeFactory.Built HOURLY =>
              (EmployeeFactory.d_hourly_rate d = None ->
               EmployeeFactory.create_employee d
               = EmployeeFactory.Failed (EmployeeFactory.KeyError "hourly_rate"))
              /\ (is_Some (EmployeeFactory.d_hourly_rate d) ->
                  EmployeeFactory.d_hours_worked d = None ->
                  EmployeeFactory.create_employee d
                  = EmployeeFactory.Failed (EmployeeFactory.KeyError "hours_worked"))
          | EmployeeFactory.Built FREELANCER =>
              EmployeeFactory.create_employee d
              = EmployeeFactory.Built
                  (Employee.mk name (Some role) (Some FREELANCER) 25
                               None None None [])
          end
      end
  end.
Proof.
  unfold EmployeeFactory.create_employee.
  destruct (EmployeeFactory.d_name d) as [name |]; [| reflexivity].
  destruct (EmployeeFactory.d_role d) as [role_value |]; [| reflexivity].
  cbn [EmployeeFactory.item EmployeeFactory.andThen].
  destruct (EmployeeFactory.Role_of role_value) as [role | err] eqn:Hrole.
  - destruct (EmployeeFactory.d_type d) as [type_value |]; [| reflexivity].
    cbn [EmployeeFactory.item EmployeeFactory.andThen].
    destruct (EmployeeFactory.EmployeeType_of type_value) as [[ | | ] | err] eqn:Hty;
      cbn [EmployeeFactory.andThen].
    + intros ->. reflexivity.
    + split; [intros ->; reflexivity |].
      intros [rate ->] ->. reflexivity.
    + reflexivity.
    + f_equal. apply EmployeeType_of_failed. exact Hty.
  - cbn [EmployeeFactory.andThen]. f_equal. apply Role_of_failed. exact Hrole.
Qed.

(** X20. The input the factory accepts. It builds an employee exactly
    when the dictionary has a name, a role and a type that are values
    of their enumerations, and the keys of that type: the salary for a
    salaried employee, the hourly rate and the hours for an hourly one,
    nothing more for a freelancer. A missing name is reported first,
    and a role that is not a value is reported whatever the type. *)
Theorem create_employee_accepts (d : EmployeeFactory.data) :
  ((exists e, EmployeeFactory.create_employee d = EmployeeFactory.Built e)
   <-> (is_Some (EmployeeFactory.d_name d)
        /\ exists role ty,
             EmployeeFactory.d_role d = Some (Role_value role)
             /\ EmployeeFactory.d_type d = Some (EmployeeType_value ty)
             /\ match ty with
                | SALARIED => is_Some (EmployeeFactory.d_salary d)
                | HOURLY => is_Some (EmployeeFactory.d_hourly_rate d)
                            /\ is_Some (EmployeeFactory.d_hours_worked d)
                | FREELANCER => True
                end))
  /\ (EmployeeFactory.d_name d = None ->
      EmployeeFactory.create_employee d
      = EmployeeFactory.Failed (EmployeeFactory.KeyError "name"))
  /\ (forall role_value err,
        is_Some (EmployeeFactory.d_name d) ->
        EmployeeFactory.d_role d = Some role_value ->
        EmployeeFactory.Role_of role_value = EmployeeFactory.Failed err ->
        EmployeeFactory.create_employee d
        = EmployeeFactory.Failed (EmployeeFactory.NotAValue "Role" role_value)).
Proof.
  split; [split |].
  - intros [e Hbuilt].
    destruct (create_employee_built d e Hbuilt)
      as (name & rv & role & tv & ty & Hname & Hrv & Hrole & Htv & Hty & Hshape).
    destruct (enum_values_round_trip_aux rv tv role ty Hrole Hty) as [-> ->].
    split; [eauto |]. exists role, ty. repeat split; try assumption.
    destruct ty.
    + destruct Hshape as (salary & -> & _). eauto.
    + destruct Hshape as (rate & hours & -> & -> & _). eauto.
    + exact I.
  - intros ([name Hname] & role & ty & Hrole & Hty & Hkeys).
    unfold EmployeeFactory.create_employee.
    rewrite Hname, Hrole, Hty.
    cbn [EmployeeFactory.item EmployeeFactory.andThen].
    replace (EmployeeFactory.Role_of (Role_value role))
      with (EmployeeFactory.Built role) by (destruct role; reflexivity).
    replace (EmployeeFactory.EmployeeType_of (EmployeeType_value ty))
      with (EmployeeFactory.Built ty) by (destruct ty; reflexivity).
    cbn [EmployeeFactory.andThen].
    destruct ty.
    + destruct Hkeys as [salary ->]. cbn. eauto.
    + destruct Hkeys as [[rate ->] [hours ->]]. cbn. eauto.
    + eauto.
  - pose proof (create_employee_failures d) as Hcases.
    split.
    + intros Hname. rewrite Hname in Hcases. exact Hcases.
    + intros role_value err [name Hname] Hrole Hfailed.
      rewrite Hname, Hrole, Hfailed in Hcases. exact Hcases.
Qed.

Lemma create_employee_accepts_witness :
  exists e, EmployeeFactory.create_employee gina_data = EmployeeFactory.Built e.
Proof.
  apply (create_employee_accepts gina_data).
  split; [eexists; reflexivity |].
  exists MANAGER, HOURLY.
  split; [reflexivity | split; [reflexivity |]].
  split; eexists; reflexivity.
Defined.

(** ** Paying every employee *)

(** Whether an employee is paid does not depend on the clock or on the
    log. *)
Lemma pays_anywhere cfg e now log :
  pays cfg e ->
  exists total details,
    PayrollService.pay_employee cfg now (mkWorld e log)
    = (mkWorld e (log ++ [payment_entry e total details now]), Returned total)
    /\ snd (PayrollService.pay_employee cfg 0 (mkWorld e [])) = Returned total.
Proof.
  intros [total Hpays].
  destruct (pay_employee_shape cfg e) as [[[total' details] | ex] Hr];
    rewrite Hr in Hpays; cbn [snd] in Hpays; [| discriminate Hpays].
  exists total', details. rewrite !Hr. split; reflexivity.
Qed.

Lemma not_pays_anywhere cfg e now log :
  ~ pays cfg e ->
  exists ex,
    PayrollService.pay_employee cfg now (mkWorld e log) = (mkWorld e log, Raised ex).
Proof.
  intros Hnot.
  destruct (pay_employee_shape cfg e) as [[[total details] | ex] Hr].
  - exfalso. apply Hnot. exists total. rewrite Hr. reflexivity.
  - exists ex. apply Hr.
Qed.

Lemma last_amount_cons (n : string) (op : LogEntry.t) (ops : list LogEntry.t) :
  last_amount n (op :: ops)
  = match last_amount n ops with
    | Some v => Some v
    | None => if bool_decide (LogEntry.employee_name op = Some n)
              then Some (LogEntry.amount op) else None
    end.
Proof.
  unfold last_amount. cbn [List.filter].
  destruct (bool_decide (LogEntry.employee_name op = Some n)); [| 
    destruct (last _); reflexivity].
  destruct (List.filter _ ops) as [| x l]; [reflexivity |].
  rewrite last_cons. destruct (last (x :: l)) eqn:Hlast; [reflexivity |].
  apply last_None in Hlast. discriminate Hlast.
Qed.

(** The loop over employees that are all paid. *)
Lemma pay_all_from_pays cfg clock (employees : list Employee.t) :
  forall i payments log,
    Forall (pays cfg) employees ->
    exists new payments',
      Payroll.pay_all_from cfg clock i employees payments log
      = ((employees, (log ++ new)%list), Returned payments')
      /\ Forall2 (fun e op =>
                    paid_under e op
                    /\ snd (PayrollService.pay_employee cfg 0 (mkWorld e []))
                       = Returned (LogEntry.amount op)) employees new
      /\ forall n, payments' !! n
                   = match last_amount n new with
                     | Some v => Some v
                     | None => payments !! n
                     end.
Proof.
  induction employees as [| e rest IH]; intros i payments log Hall.
  - exists [], payments. cbn [Payroll.pay_all_from]. rewrite app_nil_r.
    repeat split. constructor.
  - apply Forall_cons in Hall. destruct Hall as [Hpays Hrest].
    destruct (pays_anywhere cfg e (clock i) log Hpays)
      as (total & details & Hrun & Halone).
    cbn [Payroll.pay_all_from]. rewrite Hrun. cbn [the_employee the_log].
    destruct (IH (S i)
                 (<[Employee.name e := total]> payments)
                 (log ++ [payment_entry e total details (clock i)])%list Hrest)
      as (new & payments' & Hloop & Hpaid & Hdict).
    rewrite Hloop.
    exists (payment_entry e total details (clock i) :: new), payments'.
    split; [| split].
    + rewrite <- app_assoc. reflexivity.
    + constructor; [| exact Hpaid].
      split; [split; reflexivity | exact Halone].
    + intros n. rewrite Hdict, last_amount_cons.
      destruct (last_amount n new); [reflexivity |].
      cbn [payment_entry LogEntry.employee_name LogEntry.amount].
      destruct (decide (Employee.name e = n)) as [-> | Hne].
      * rewrite bool_decide_eq_true_2 by reflexivity. apply lookup_insert_eq.
      * rewrite bool_decide_eq_false_2 by congruence.
        apply lookup_insert_ne. exact Hne.
Qed.

(** The loop up to the first employee that is not paid. *)
Lemma pay_all_from_stops cfg clock (before : list Employee.t)
  (bad : Employee.t) (after : list Employee.t) :
  forall i payments log,
    Forall (pays cfg) before ->
    ~ pays cfg bad ->
    exists new ex,
      Payroll.pay_all_from cfg clock i (before ++ bad :: after) payments log
      = ((before ++ bad :: after, log ++ new)%list, Raised ex)
      /\ snd (PayrollService.pay_employee cfg 0 (mkWorld bad [])) = Raised ex
      /\ Forall2 paid_under before new.
Proof.
  induction before as [| e rest IH]; intros i payments log Hall Hbad.
  - destruct (not_pays_anywhere cfg bad (clock i) log Hbad) as [ex Hrun].
    destruct (not_pays_anywhere cfg bad 0 [] Hbad) as [ex0 Hrun0].
    assert (ex0 = ex).
    { destruct (pay_employee_shape cfg bad) as [[[t dt] | ex'] Hr];
        rewrite Hr in Hrun, Hrun0; congruence. }
    subst ex0.
    exists [], ex. cbn [app Payroll.pay_all_from]. rewrite Hrun, Hrun0.
    cbn [the_employee the_log]. rewrite app_nil_r.
    split; [reflexivity | split; [reflexivity | constructor]].
  - apply Forall_cons in Hall. destruct Hall as [Hpays Hrest].
    destruct (pays_anywhere cfg e (clock i) log Hpays)
      as (total & details & Hrun & _).
    cbn [app Payroll.pay_all_from]. rewrite Hrun. cbn [the_employee the_log].
    destruct (IH (S i)
                 (<[Employee.name e := total]> payments)
                 (log ++ [payment_entry e total details (clock i)])%list Hrest Hbad)
      as (new & ex & Hloop & Hex & Hpaid).
    rewrite Hloop.
    exists (payment_entry e total details (clock i) :: new), ex.
    split; [| split; [exact Hex |]].
    + rewrite <- app_assoc. reflexivity.
    + constructor; [split; reflexivity | exact Hpaid].
Qed.

(** X21. Paying a list of employees, each of which [pay_employee] pays,
    returns the dictionary of payments, leaves every employee as it was
    and appends to the log one PAYMENT entry per employee, in the order
    of the list, each under the employee's name and with the total that
    [pay_employee] returns for that employee alone. The dictionary is
    keyed by name: it maps a name to the amount of the last entry
    recorded under it, so that of two employees with the same name only
    the later payment is reported, though both are logged. *)
Theorem pay_all_returns (cfg : gmap string pyval) (clock : nat -> Z)
  (employees : list Employee.t) (log : list LogEntry.t) :
  Forall (pays cfg) employees ->
  exists new payments,
    Payroll.pay_all_employees cfg clock employees log
    = ((employees, (log ++ new)%list), Returned payments)
    /\ Forall2 (fun e op =>
                  paid_under e op
                  /\ snd (PayrollService.pay_employee cfg 0 (mkWorld e []))
                     = Returned (LogEntry.amount op)) employees new
    /\ forall n, payments !! n = last_amount n new.
Proof.
  intros Hall. unfold Payroll.pay_all_employees.
  destruct (pay_all_from_pays cfg clock employees 0%nat ∅ log Hall)
    as (new & payments & Hloop & Hpaid & Hdict).
  exists new, payments. split; [exact Hloop | split; [exact Hpaid |]].
  intros n. rewrite Hdict, lookup_empty.
  destruct (last_amount n new); reflexivity.
Qed.

Lemma pay_all_returns_witness :
  exists new payments,
    Payroll.pay_all_employees alice_config (fun i => Z.of_nat i) [alice; frank] []
    = (([alice; frank], new), Returned payments)
    /\ forall n, payments !! n = last_amount n new.
Proof.
  destruct (pay_all_returns alice_config (fun i => Z.of_nat i) [alice; frank] [])
    as (new & payments & Hrun & _ & Hdict).
  - repeat constructor; eexists; vm_compute; reflexivity.
  - exists new, payments. split; [exact Hrun | exact Hdict].
Defined.

(** X22. Paying a list is not all-or-nothing. At the first employee
    that [pay_employee] does not pay the loop raises the exception of
    that employee, and the payments made before stay in the log, one
    PAYMENT entry for each employee ahead of the failing one and none
    for it or for those behind; the dictionary is lost and no employee
    is changed. *)
Theorem pay_all_stops_at_first_failure (cfg : gmap string pyval) (clock : nat -> Z)
  (before : list Employee.t) (bad : Employee.t) (after : list Employee.t)
  (log : list LogEntry.t) :
  Forall (pays cfg) before ->
  ~ pays cfg bad ->
  exists new ex,
    Payroll.pay_all_employees cfg clock (before ++ bad :: after) log
    = ((before ++ bad :: after, log ++ new)%list, Raised ex)
    /\ snd (PayrollService.pay_employee cfg 0 (mkWorld bad [])) = Raised ex
    /\ Forall2 paid_under before new
    /\ length new = length before.
Proof.
  intros Hall Hbad. unfold Payroll.pay_all_employees.
  destruct (pay_all_from_stops cfg clock before bad after 0%nat ∅ log Hall Hbad)
    as (new & ex & Hloop & Hex & Hpaid).
  exists new, ex.
  split; [exact Hloop | split; [exact Hex | split; [exact Hpaid |]]].
  symmetry. eapply Forall2_length. exact Hpaid.
Qed.

Lemma pay_all_stops_at_first_failure_witness :
  exists new ex,
    Payroll.pay_all_employees alice_config (fun i => Z.of_nat i)
                              ([alice] ++ olga :: [frank])%list []
    = ((([alice] ++ olga :: [frank])%list, new), Raised ex)
    /\ snd (PayrollService.pay_employee alice_config 0 (mkWorld olga []))
       = Raised ex
    /\ length new = 1%nat.
Proof.
  destruct (pay_all_stops_at_first_failure alice_config (fun i => Z.of_nat i)
              [alice] olga [frank] [])
    as (new & ex & Hrun & Hex & _ & Hlen).
  - repeat constructor; eexists; vm_compute; reflexivity.
  - intros [total Hpays]. vm_compute in Hpays. discriminate Hpays.
  - exists new, ex. split; [exact Hrun | split; [exact Hex | exact Hlen]].
Defined.

(** The loop on a list where the second employee overflows: Alice's
    payment stays in the log, Frank is not reached. *)
Example pay_all_overflow :
  Payroll.pay_all_employees alice_config (fun i => Z.of_nat i)
                            [alice; olga; frank] []
  = (([alice; olga; frank],
      [LogEntry.mk 0 "PAYMENT" (Some "Alice") (PFloat (nearest_float 3500))
                   (Some (BaseBonus (nearest_float 3400) (Some (nearest_float 100))))]),
     Raised OverflowError).
Proof. vm_compute. reflexivity. Qed.

(** ** The company's list of employees *)

Lemma find_by_role_snoc (role : option Role) (employees : list Employee.t)
  (e : Employee.t) :
  Staff.find_employees_by_role role (employees ++ [e])
  = (Staff.find_employees_by_role role employees
     ++ (if bool_decide (Employee.role e = role) then [e] else []))%list.
Proof.
  unfold Staff.find_employees_by_role. rewrite List.filter_app. reflexivity.
Qed.

Lemma find_by_type_snoc (ty : option EmployeeType) (employees : list Employee.t)
  (e : Employee.t) :
  Staff.find_employees_by_type ty (employees ++ [e])
  = (Staff.find_employees_by_type ty employees
     ++ (if bool_decide (Employee.employee_type e = ty) then [e] else []))%list.
Proof.
  unfold Staff.find_employees_by_type. rewrite List.filter_app. reflexivity.
Qed.

(** X23. Adding an employee to the company. When the factory refuses
    the dictionary the list is left as it was. Otherwise the new
    employee goes to the end of the list; searching by its role, or by
    its type, then gives the former answer followed by the new
    employee, and searching by any other role or type gives the former
    answer. *)
Theorem add_employee_then_find (d : EmployeeFactory.data)
  (employees : list Employee.t) :
  match Staff.add_employee d employees with
  | (employees', EmployeeFactory.Built e) =>
      EmployeeFactory.create_employee d = EmployeeFactory.Built e
      /\ employees' = (employees ++ [e])%list
      /\ (forall role,
            Staff.find_employees_by_role role employees'
            = (Staff.find_employees_by_role role employees
               ++ (if decide (Employee.role e = role) then [e] else []))%list)
      /\ (forall ty,
            Staff.find_employees_by_type ty employees'
            = (Staff.find_employees_by_type ty employees
               ++ (if decide (Employee.employee_type e = ty) then [e] else []))%list)
  | (employees', EmployeeFactory.Failed err) =>
      EmployeeFactory.create_employee d = EmployeeFactory.Failed err
      /\ employees' = employees
  end.
Proof.
  unfold Staff.add_employee.
  destruct (EmployeeFactory.create_employee d) as [e | err]; [| split; reflexivity].
  split; [reflexivity | split; [reflexivity | split]].
  - intros role. rewrite find_by_role_snoc.
    destruct (decide (Employee.role e = role)) as [Heq | Hne];
      [rewrite bool_decide_eq_true_2 by exact Heq
      | rewrite bool_decide_eq_false_2 by exact Hne]; reflexivity.
  - intros ty. rewrite find_by_type_snoc.
    destruct (decide (Employee.employee_type e = ty)) as [Heq | Hne];
      [rewrite bool_decide_eq_true_2 by exact Heq
      | rewrite bool_decide_eq_false_2 by exact Hne]; reflexivity.
Qed.

(** X24. The searches by role split the employees the factory built:
    in a list of such employees every one is an intern, a manager or a
    vice president, so the three searches together return as many
    employees as the list has, and likewise the three searches by
    compensation type. *)
Theorem searches_split_built_employees (employees : list Employee.t) :
  Forall (fun e => exists d,
            EmployeeFactory.create_employee d = EmployeeFactory.Built e)
         employees ->
  (length (Staff.find_employees_by_role (Some INTERN) employees)
   + length (Staff.find_employees_by_role (Some MANAGER) employees)
   + length (Staff.find_employees_by_role (Some VICE_PRESIDENT) employees)
   = length employees)%nat
  /\ (length (Staff.find_employees_by_type (Some SALARIED) employees)
      + length (Staff.find_employees_by_type (Some HOURLY) employees)
      + length (Staff.find_employees_by_type (Some FREELANCER) employees)
      = length employees)%nat.
Proof.
  induction 1 as [| e rest [d Hbuilt] _ [IHrole IHtype]]; [split; reflexivity |].
  destruct (create_employee_built d e Hbuilt)
    as (name & rv & role & tv & ty & _ & _ & _ & _ & _ & Hshape).
  assert (Hfields : Employee.role e = Some role
                    /\ Employee.employee_type e = Some ty).
  { destruct ty; [destruct Hshape as (? & _ & ->)
                 | destruct Hshape as (? & ? & _ & _ & ->) | subst e];
      split; reflexivity. }
  destruct Hfields as [Hrole Hty].
  unfold Staff.find_employees_by_role, Staff.find_employees_by_type in *.
  cbn [List.filter]. rewrite Hrole, Hty.
  split.
  - destruct role;
      repeat (match goal with
              | |- context [bool_decide (Some ?a = Some ?b)] =>
                  let v := eval vm_compute in (bool_decide (Some a = Some b)) in
                  change (bool_decide (Some a = Some b)) with v
              end);
      cbn [length]; lia.
  - destruct ty;
      repeat (match goal with
              | |- context [bool_decide (Some ?a = Some ?b)] =>
                  let v := eval vm_compute in (bool_decide (Some a = Some b)) in
                  change (bool_decide (Some a = Some b)) with v
              end);
      cbn [length]; lia.
Qed.

Lemma searches_split_built_employees_witness :
  (length (Staff.find_employees_by_role (Some INTERN) [gina])
   + length (Staff.find_employees_by_role (Some MANAGER) [gina])
   + length (Staff.find_employees_by_role (Some VICE_PRESIDENT) [gina])
   = length [gina])%nat.
Proof.
  apply (searches_split_built_employees [gina]).
  constructor; [exists gina_data; reflexivity | constructor].
Defined.

